(** * Weather forecast widget: the normalization pipeline and the view-state controller

    A shallow embedding of [WeatherApp] (the React component that geocodes a
    city, fetches its forecast, sorts it, optionally averages it per day and
    keeps the result in component state), followed by the properties of the
    pipeline and of the event handlers.

    Modelling conventions.
    - A JavaScript string is a [string] whose characters are code units below
      256; [trim], [split] and property-key order follow ECMAScript on them.
    - A JavaScript [number] is an instance of the class [JsNumber]: the
      pipeline only ever adds two numbers, divides two numbers and counts from
      1.  The numbers of the engine are the instance IEEE binary64 ([float]);
      the instance of exact rationals ([Qc]) tells what the same additions and
      divisions give when nothing is rounded.  What is stated of every
      instance holds of both.
    - [`${x}`] for a number [x] is a parameter [toString : num -> string].
    - [new Date(s).getTime()] is a parameter [getTime : string -> Z]
      (milliseconds; the engine's parser and the local time zone decide its
      values).  Timestamps that do not parse (NaN) are outside the model.
    - [groupedData] is an ordinary object: reads fall through to
      [Object.prototype], and [Object.keys] lists array-index keys first.
    - One call of [fetchWeatherData] runs to completion before another handler
      runs; the two [axios.get] calls are answered by a [Network] value.
    - What the component returns is a tree of elements with their props;
      [Input] and [Button] are expanded to the elements they return, the chart
      library's components stay elements under their own names. *)

From Stdlib Require Import String Ascii.
From Stdlib Require Import List ZArith NArith Bool Lia.
From Stdlib Require Import Permutation Sorted RelationClasses OrdersEx.
From Stdlib Require Import QArith Qcanon Floats DecimalString.
Import ListNotations.

Local Close Scope Q_scope.
Local Open Scope string_scope.
Local Open Scope list_scope.

(** ** Strings *)

Module JsString.

(** WhiteSpace and LineTerminator code points below 256: TAB, LF, VT, FF, CR,
    SP and NBSP. *)
Definition isWhiteSpace (c : ascii) : bool :=
  let n := N_of_ascii c in
  (((9 <=? n) && (n <=? 13)) || (n =? 32) || (n =? 160))%N.

Fixpoint trimStart (s : string) : string :=
  match s with
  | EmptyString => EmptyString
  | String c s' => if isWhiteSpace c then trimStart s' else s
  end.

Fixpoint trimEnd (s : string) : string :=
  match s with
  | EmptyString => EmptyString
  | String c s' =>
      match trimEnd s' with
      | EmptyString => if isWhiteSpace c then EmptyString else String c EmptyString
      | t => String c t
      end
  end.

(** [s.trim()] *)
Definition trim (s : string) : string := trimEnd (trimStart s).

(** Truthiness of a string: every string but the empty one. *)
Definition truthy (s : string) : bool := negb (s =? "").

(** [s.split(sep)[0]] for a one-character separator: the part of [s] before
    the first [sep], all of [s] when there is none. *)
Fixpoint split_head (sep : ascii) (s : string) : string :=
  match s with
  | EmptyString => EmptyString
  | String c s' => if Ascii.eqb c sep then EmptyString else String c (split_head sep s')
  end.

Definition isDigit (c : ascii) : bool :=
  let n := N_of_ascii c in ((48 <=? n) && (n <=? 57))%N.

Fixpoint digits_value (acc : N) (s : string) : option N :=
  match s with
  | EmptyString => Some acc
  | String c s' =>
      if isDigit c then digits_value (10 * acc + (N_of_ascii c - 48))%N s' else None
  end.

(** An array index is the canonical decimal numeral of an integer in
    [0, 2^32 - 2]: no sign, no leading zero. *)
Definition arrayIndex (s : string) : option N :=
  match s with
  | EmptyString => None
  | String c s' =>
      if Ascii.eqb c "0" && negb (s' =? "") then None
      else match digits_value 0 s with
           | Some n => if (n <? 2 ^ 32 - 1)%N then Some n else None
           | None => None
           end
  end.

(** The shape the forecast endpoint gives [dt_txt]: "YYYY-MM-DD HH:MM:SS". *)
Inductive CharClass := Digit | Lit (c : ascii).

Definition matches_class (k : CharClass) (c : ascii) : bool :=
  match k with
  | Digit => isDigit c
  | Lit d => Ascii.eqb c d
  end.

Fixpoint matches (p : list CharClass) (s : string) : bool :=
  match p, s with
  | [], EmptyString => true
  | k :: p', String c s' => matches_class k c && matches p' s'
  | _, _ => false
  end.

Definition date_pattern : list CharClass :=
  [Digit; Digit; Digit; Digit; Lit "-"; Digit; Digit; Lit "-"; Digit; Digit].

Definition time_pattern : list CharClass :=
  [Digit; Digit; Lit ":"; Digit; Digit; Lit ":"; Digit; Digit].

Definition isTimestamp (s : string) : bool :=
  matches (date_pattern ++ Lit " " :: time_pattern) s.

End JsString.

(** ** Numbers *)

(** What the pipeline asks of a JavaScript number: [a + b], [a / b] and the
    literal [1]. *)
Class JsNumber (num : Type) := {
  num_add : num -> num -> num;
  num_div : num -> num -> num;
  num_one : num
}.

#[export] Instance Qc_JsNumber : JsNumber Qc :=
  {| num_add := Qcplus; num_div := Qcdiv; num_one := 1%Qc |}.

#[export] Instance float_JsNumber : JsNumber float :=
  {| num_add := PrimFloat.add; num_div := PrimFloat.div; num_one := 1%float |}.

(** ** Objects used as string-keyed maps *)

Module JsObject.

(** Own properties, in creation order. *)
Definition t (V : Type) : Type := list (string * V).

(** The property names every plain object inherits from [Object.prototype];
    each of them reads as a function or an object, hence as a truthy value. *)
Definition prototypeKeys : list string :=
  [ "constructor"; "hasOwnProperty"; "isPrototypeOf"; "propertyIsEnumerable";
    "toLocaleString"; "toString"; "valueOf"; "__proto__";
    "__defineGetter__"; "__defineSetter__"; "__lookupGetter__"; "__lookupSetter__" ].

Definition inherited (k : string) : bool := existsb (String.eqb k) prototypeKeys.

Inductive Lookup (V : Type) : Type :=
| Own (v : V)
| Inherited
| Undefined.
Arguments Own {V} v.
Arguments Inherited {V}.
Arguments Undefined {V}.

Section Ops.
Context {V : Type}.

Fixpoint own (o : t V) (k : string) : option V :=
  match o with
  | [] => None
  | (k', v) :: o' => if k' =? k then Some v else own o' k
  end.

(** [o[k]] *)
Definition get (o : t V) (k : string) : Lookup V :=
  match own o k with
  | Some v => Own v
  | None => if inherited k then Inherited else Undefined
  end.

(** [o[k] = v]: an existing own property keeps its place, a new one goes
    last. *)
Fixpoint set (o : t V) (k : string) (v : V) : t V :=
  match o with
  | [] => [(k, v)]
  | (k', v') :: o' => if k' =? k then (k', v) :: o' else (k', v') :: set o' k v
  end.

Fixpoint insert_index (e : N * string) (l : list (N * string)) : list (N * string) :=
  match l with
  | [] => [e]
  | e' :: l' => if (fst e <=? fst e')%N then e :: l else e' :: insert_index e l'
  end.

Definition index_keys (ks : list string) : list (N * string) :=
  flat_map (fun k => match JsString.arrayIndex k with
                     | Some n => [(n, k)]
                     | None => []
                     end) ks.

(** [Object.keys(o)]: array indices in ascending numeric order, then the
    other keys in creation order. *)
Definition keys (o : t V) : list string :=
  let ks := map fst o in
  map snd (fold_right insert_index [] (index_keys ks))
  ++ filter (fun k => match JsString.arrayIndex k with Some _ => false | None => true end) ks.

End Ops.

End JsObject.

(** ** Data *)

(** [interface WeatherItem]: one entry of the forecast response's [list]. *)
Module WeatherItem.
Record Main (num : Type) := { temp : num; pressure : num; humidity : num }.
Record Wind (num : Type) := { speed : num }.
Record t (num : Type) := { dt_txt : string; main : Main num; wind : Wind num }.
Arguments temp {num}.
Arguments pressure {num}.
Arguments humidity {num}.
Arguments speed {num}.
Arguments dt_txt {num}.
Arguments main {num}.
Arguments wind {num}.
Arguments Build_t {num}.
Arguments Build_Main {num}.
Arguments Build_Wind {num}.
End WeatherItem.

(** [WeatherData['data'][0]]: one point of the displayed series. *)
Module DataPoint.
Record t (num : Type) := {
  dt_txt : string; temp : num; pressure : num; humidity : num; wind : num
}.
Arguments dt_txt {num}.
Arguments temp {num}.
Arguments pressure {num}.
Arguments humidity {num}.
Arguments wind {num}.
Arguments Build_t {num}.
End DataPoint.

(** A value of [groupedData]: a data point with its [count]. *)
Module Group.
Record t (num : Type) := {
  dt_txt : string; temp : num; pressure : num; humidity : num; wind : num;
  count : num
}.
Arguments dt_txt {num}.
Arguments temp {num}.
Arguments pressure {num}.
Arguments humidity {num}.
Arguments wind {num}.
Arguments count {num}.
Arguments Build_t {num}.
End Group.

(** [interface WeatherData] *)
Record WeatherData (num : Type) := {
  city : string;
  data : list (DataPoint.t num)
}.
Arguments city {num}.
Arguments data {num}.
Arguments Build_WeatherData {num}.

(** ** The normalization pipeline (the body of [fetchWeatherData] between the
    forecast response and [setCityData]) *)

Section ArraySort.
Context {A : Type} (compareFn : A -> A -> Z).

Fixpoint sort_insert (x : A) (l : list A) : list A :=
  match l with
  | [] => [x]
  | y :: l' => if (compareFn x y <=? 0)%Z then x :: l else y :: sort_insert x l'
  end.

(** [l.sort(compareFn)].  [Array.prototype.sort] is stable, so for a
    comparator that orders by a key its result is the one list that is a
    sorted rearrangement of [l] keeping equal elements in their order; this
    insertion sort computes it. *)
Fixpoint Array_sort (l : list A) : list A :=
  match l with
  | [] => []
  | x :: l' => sort_insert x (Array_sort l')
  end.
End ArraySort.

Section Normalization.
Context {num : Type} `{JsNumber num}.
Variable getTime : string -> Z.

(** The callback of [weatherRes.data.list.map]. *)
Definition flatten (item : WeatherItem.t num) : DataPoint.t num :=
  {| DataPoint.dt_txt := WeatherItem.dt_txt item;
     DataPoint.temp := WeatherItem.temp (WeatherItem.main item);
     DataPoint.pressure := WeatherItem.pressure (WeatherItem.main item);
     DataPoint.humidity := WeatherItem.humidity (WeatherItem.main item);
     DataPoint.wind := WeatherItem.speed (WeatherItem.wind item) |}.

(** The comparator of [data.sort]. *)
Definition by_time (a b : DataPoint.t num) : Z :=
  (getTime (DataPoint.dt_txt a) - getTime (DataPoint.dt_txt b))%Z.

(** [item.dt_txt.split(' ')[0]] *)
Definition date_of (dt_txt : string) : string := JsString.split_head " " dt_txt.

(** [{ ...item, count: 1 }] *)
Definition first_of_day (item : DataPoint.t num) : Group.t num :=
  {| Group.dt_txt := DataPoint.dt_txt item;
     Group.temp := DataPoint.temp item;
     Group.pressure := DataPoint.pressure item;
     Group.humidity := DataPoint.humidity item;
     Group.wind := DataPoint.wind item;
     Group.count := num_one |}.

(** The five [+=] of the [else] branch. *)
Definition accumulate (g : Group.t num) (item : DataPoint.t num) : Group.t num :=
  {| Group.dt_txt := Group.dt_txt g;
     Group.temp := num_add (Group.temp g) (DataPoint.temp item);
     Group.pressure := num_add (Group.pressure g) (DataPoint.pressure item);
     Group.humidity := num_add (Group.humidity g) (DataPoint.humidity item);
     Group.wind := num_add (Group.wind g) (DataPoint.wind item);
     Group.count := num_add (Group.count g) num_one |}.

(** The callback of [data.forEach].  When [date] names a member of
    [Object.prototype] the test [!groupedData[date]] is false and the [+=]
    land on that member: [groupedData] gets no property. *)
Definition group_item (groupedData : JsObject.t (Group.t num)) (item : DataPoint.t num)
  : JsObject.t (Group.t num) :=
  let date := date_of (DataPoint.dt_txt item) in
  match JsObject.get groupedData date with
  | JsObject.Undefined => JsObject.set groupedData date (first_of_day item)
  | JsObject.Own g => JsObject.set groupedData date (accumulate g item)
  | JsObject.Inherited => groupedData
  end.

(** The callback of [Object.keys(groupedData).map]. *)
Definition average (date : string) (g : Group.t num) : DataPoint.t num :=
  {| DataPoint.dt_txt := date;
     DataPoint.temp := num_div (Group.temp g) (Group.count g);
     DataPoint.pressure := num_div (Group.pressure g) (Group.count g);
     DataPoint.humidity := num_div (Group.humidity g) (Group.count g);
     DataPoint.wind := num_div (Group.wind g) (Group.count g) |}.

(** [Object.keys(groupedData).map(...)].  Every key read back is an own
    property (lemma [keys_own] below), so the read never meets [undefined]. *)
Definition averages (groupedData : JsObject.t (Group.t num)) : list (DataPoint.t num) :=
  flat_map (fun date => match JsObject.own groupedData date with
                        | Some g => [average date g]
                        | None => []
                        end)
           (JsObject.keys groupedData).

Definition group_by_day (data : list (DataPoint.t num)) : JsObject.t (Group.t num) :=
  fold_left group_item data [].

(** From [weatherRes.data.list] to the [data] handed to [setCityData]. *)
Definition normalize (granularity : string) (items : list (WeatherItem.t num))
  : list (DataPoint.t num) :=
  let data := map flatten items in
  let data := Array_sort by_time data in
  if granularity =? "day" then averages (group_by_day data) else data.

End Normalization.


(** ** The view state and its effects *)

(** The six [useState] cells of the component. *)
Module ViewState.
Record t (num : Type) := {
  city : string;
  cityData : option (WeatherData num);
  metric : string;
  granularity : string;
  isLoading : bool;
  error : option string
}.
Arguments city {num}.
Arguments cityData {num}.
Arguments metric {num}.
Arguments granularity {num}.
Arguments isLoading {num}.
Arguments error {num}.
Arguments Build_t {num}.

(** The initial values given to [useState]. *)
Definition initial {num : Type} : t num :=
  {| city := ""; cityData := None; metric := "temp"; granularity := "3h";
     isLoading := false; error := None |}.
End ViewState.

(** One match of the geocoding response. *)
Record GeoMatch (num : Type) := { lat : num; lon : num }.
Arguments lat {num}.
Arguments lon {num}.
Arguments Build_GeoMatch {num}.

(** A GET request, by the URL handed to [axios.get]. *)
Inductive Request : Type :=
| Get (url : string).

(** What a [catch] can receive: an [Error] with its message, or any other
    value. *)
Inductive Thrown : Type :=
| JsError (message : string)
| NotAnError.

(** How the two endpoints answer: a rejection of [axios.get] (transport
    failure or non-2xx status) or the response's [data]. *)
Record Network (num : Type) := {
  geocode : string -> string -> Thrown + list (GeoMatch num);
  forecast : num -> num -> string -> Thrown + list (WeatherItem.t num)
}.
Arguments geocode {num}.
Arguments forecast {num}.
Arguments Build_Network {num}.

(** The component's state and the requests issued so far. *)
Record World (num : Type) := {
  view : ViewState.t num;
  requests : list Request
}.
Arguments view {num}.
Arguments requests {num}.
Arguments Build_World {num}.

Inductive Outcome (A : Type) : Type :=
| Done (a : A)
| Throws (e : Thrown).
Arguments Done {A}.
Arguments Throws {A}.

(** Computations that read and write the world and may throw; the world
    written before a throw stays written. *)
Definition M (num A : Type) : Type := World num -> Outcome A * World num.

Definition ret {num A : Type} (a : A) : M num A := fun w => (Done a, w).

Definition bind {num A B : Type} (m : M num A) (k : A -> M num B) : M num B :=
  fun w =>
    match m w with
    | (Done a, w') => k a w'
    | (Throws e, w') => (Throws e, w')
    end.

Definition throw {num A : Type} (e : Thrown) : M num A := fun w => (Throws e, w).

Declare Scope js_scope.
Delimit Scope js_scope with js.
Notation "x <- m ;; k" := (bind m (fun x => k))
  (at level 61, m at next level, right associativity) : js_scope.
Notation "m ;; k" := (bind m (fun _ => k))
  (at level 61, right associativity) : js_scope.

(** [try { body } catch (e) { handler(e) } finally { finalizer }] *)
Definition try_catch_finally {num : Type}
  (body : M num unit) (handler : Thrown -> M num unit) (finalizer : M num unit)
  : M num unit :=
  fun w =>
    let '(r, w1) :=
      match body w with
      | (Done a, w1) => (Done a, w1)
      | (Throws e, w1) => handler e w1
      end in
    match finalizer w1 with
    | (Done _, w2) => (r, w2)
    | (Throws e, w2) => (Throws e, w2)
    end.

Section Controller.
Context {num : Type} `{JsNumber num}.
Variable getTime : string -> Z.

(** [`${x}`] for a number [x]. *)
Variable toString : num -> string.

(** [process.env.REACT_APP_OPENWEATHER_API_KEY]: a string or [undefined]. *)
Variable API_KEY : option string.

Definition update (f : ViewState.t num -> ViewState.t num) : M num unit :=
  fun w => (Done tt, {| view := f (view w); requests := requests w |}).

Definition read {A : Type} (f : ViewState.t num -> A) : M num A :=
  fun w => (Done (f (view w)), w).

Definition setCity (v : string) : M num unit :=
  update (fun s =>
    {| ViewState.city := v; ViewState.cityData := ViewState.cityData s;
       ViewState.metric := ViewState.metric s;
       ViewState.granularity := ViewState.granularity s;
       ViewState.isLoading := ViewState.isLoading s; ViewState.error := ViewState.error s |}).

Definition setCityData (v : option (WeatherData num)) : M num unit :=
  update (fun s =>
    {| ViewState.city := ViewState.city s; ViewState.cityData := v;
       ViewState.metric := ViewState.metric s;
       ViewState.granularity := ViewState.granularity s;
       ViewState.isLoading := ViewState.isLoading s; ViewState.error := ViewState.error s |}).

Definition setMetric (v : string) : M num unit :=
  update (fun s =>
    {| ViewState.city := ViewState.city s; ViewState.cityData := ViewState.cityData s;
       ViewState.metric := v;
       ViewState.granularity := ViewState.granularity s;
       ViewState.isLoading := ViewState.isLoading s; ViewState.error := ViewState.error s |}).

Definition setGranularity (v : string) : M num unit :=
  update (fun s =>
    {| ViewState.city := ViewState.city s; ViewState.cityData := ViewState.cityData s;
       ViewState.metric := ViewState.metric s;
       ViewState.granularity := v;
       ViewState.isLoading := ViewState.isLoading s; ViewState.error := ViewState.error s |}).

Definition setIsLoading (v : bool) : M num unit :=
  update (fun s =>
    {| ViewState.city := ViewState.city s; ViewState.cityData := ViewState.cityData s;
       ViewState.metric := ViewState.metric s;
       ViewState.granularity := ViewState.granularity s;
       ViewState.isLoading := v; ViewState.error := ViewState.error s |}).

Definition setError (v : option string) : M num unit :=
  update (fun s =>
    {| ViewState.city := ViewState.city s; ViewState.cityData := ViewState.cityData s;
       ViewState.metric := ViewState.metric s;
       ViewState.granularity := ViewState.granularity s;
       ViewState.isLoading := ViewState.isLoading s; ViewState.error := v |}).

(** [await axios.get(url)]: the request goes out, then the answer comes back
    or is thrown. *)
Definition axios_get {A : Type} (r : Request) (answer : Thrown + A) : M num A :=
  fun w =>
    let w' := {| view := view w; requests := requests w ++ [r] |} in
    match answer with
    | inl e => (Throws e, w')
    | inr a => (Done a, w')
    end.

(** [!API_KEY]: true of [undefined] and of the empty string. *)
Definition not_API_KEY : bool :=
  match API_KEY with
  | None => true
  | Some k => k =? ""
  end.

(** [`${API_KEY}`] *)
Definition appid : string :=
  match API_KEY with
  | None => "undefined"
  | Some k => k
  end.

(** The two URLs, as the template literals put them together: the city name,
    the coordinates and the key go in as they are. *)
Definition geo_url (cityName : string) : string :=
  ("https://api.openweathermap.org/geo/1.0/direct?q=" ++ cityName
   ++ "&limit=1&appid=" ++ appid)%string.

Definition forecast_url (lat lon : num) : string :=
  ("https://api.openweathermap.org/data/2.5/forecast?lat=" ++ toString lat
   ++ "&lon=" ++ toString lon ++ "&appid=" ++ appid ++ "&units=metric")%string.

(** The [try] block of [fetchWeatherData]. *)
Definition fetch_body (net : Network num) (cityName granularity : string) : M num unit :=
  (geoRes <- axios_get (Get (geo_url cityName)) (geocode net cityName appid) ;;
   match geoRes with
   | [] => throw (JsError "City not found")
   | first :: _ =>
       weatherRes <-
         axios_get (Get (forecast_url (lat first) (lon first)))
                   (forecast net (lat first) (lon first) appid) ;;
       let data := normalize getTime granularity weatherRes in
       setCityData (Some {| city := cityName; data := data |})
   end)%js.

(** [error instanceof Error ? error.message : 'Failed to fetch weather data'] *)
Definition message_of (e : Thrown) : string :=
  match e with
  | JsError m => m
  | NotAnError => "Failed to fetch weather data"
  end.

(** [fetchWeatherData].  The [console.error] of the handler writes to the
    console only and is left out. *)
Definition fetchWeatherData (net : Network num) (cityName granularity : string)
  : M num unit :=
  if not_API_KEY then setError (Some "API key is not configured")
  else
    (setIsLoading true ;;
     setError None ;;
     try_catch_finally
       (fetch_body net cityName granularity)
       (fun e => setError (Some (message_of e)))
       (setIsLoading false))%js.

(** [handleCitySubmit], after [e.preventDefault()], which concerns the
    browser's own form submission. *)
Definition handleCitySubmit (net : Network num) : M num unit :=
  (city <- read ViewState.city ;;
   granularity <- read ViewState.granularity ;;
   if JsString.truthy (JsString.trim city)
   then fetchWeatherData net (JsString.trim city) granularity
   else ret tt)%js.

Definition handleInputChange (value : string) : M num unit := setCity value.

Definition handleMetricChange (value : string) : M num unit := setMetric value.

Definition handleGranularityChange (net : Network num) (value : string) : M num unit :=
  (let newGranularity := value in
   setGranularity newGranularity ;;
   city <- read ViewState.city ;;
   if JsString.truthy (JsString.trim city)
   then fetchWeatherData net (JsString.trim city) newGranularity
   else ret tt)%js.

(** What the user can do, and the states the component can be in between two
    events. *)
Inductive Event : Type :=
| CitySubmit (net : Network num)
| InputChange (value : string)
| MetricChange (value : string)
| GranularityChange (net : Network num) (value : string).

Definition handle (ev : Event) : M num unit :=
  match ev with
  | CitySubmit net => handleCitySubmit net
  | InputChange value => handleInputChange value
  | MetricChange value => handleMetricChange value
  | GranularityChange net value => handleGranularityChange net value
  end.

(** Running a handler from a state, with an empty request log. *)
Definition run (m : M num unit) (s : ViewState.t num) : World num :=
  snd (m {| view := s; requests := [] |}).

Inductive reachable : ViewState.t num -> Prop :=
| reachable_initial : reachable ViewState.initial
| reachable_step s ev : reachable s -> reachable (view (run (handle ev) s)).

(** The loading flag is up only where a credential is configured:
    [setIsLoading(true)] sits behind the [!API_KEY] test. *)
Definition loading_has_key (s : ViewState.t num) : bool :=
  implb (ViewState.isLoading s) (negb not_API_KEY).

(** The attempt does not reach [setCityData]: no credential, a rejected
    request, or no geocoding match. *)
Definition attempt_fails (net : Network num) (cityName : string) : bool :=
  if not_API_KEY then true
  else match geocode net cityName appid with
       | inl _ => true
       | inr [] => true
       | inr (first :: _) =>
           match forecast net (lat first) (lon first) appid with
           | inl _ => true
           | inr _ => false
           end
       end.

End Controller.

(** ** Vocabulary of the properties *)

(** A comparator that orders by a numeric key, and the order it induces. *)
Definition by_key {A : Type} (key : A -> Z) (x y : A) : Z := (key x - key y)%Z.

Definition key_le {A : Type} (key : A -> Z) (x y : A) : Prop := (key x <= key y)%Z.

(** The parsed time of a point. *)
Definition time_of {num : Type} (getTime : string -> Z) (p : DataPoint.t num) : Z :=
  getTime (DataPoint.dt_txt p).

(** The flat list after [data.sort]. *)
Definition sorted_points {num : Type} (getTime : string -> Z)
  (items : list (WeatherItem.t num)) : list (DataPoint.t num) :=
  Array_sort (by_time getTime) (map flatten items).

(** Ascending by parsed timestamp. *)
Definition ascending {num : Type} (getTime : string -> Z) (l : list (DataPoint.t num)) : Prop :=
  StronglySorted
    (fun a b => (getTime (DataPoint.dt_txt a) <= getTime (DataPoint.dt_txt b))%Z) l.

(** A data point read back as an entry of a forecast response. *)
Definition as_item {num : Type} (p : DataPoint.t num) : WeatherItem.t num :=
  {| WeatherItem.dt_txt := DataPoint.dt_txt p;
     WeatherItem.main :=
       {| WeatherItem.temp := DataPoint.temp p;
          WeatherItem.pressure := DataPoint.pressure p;
          WeatherItem.humidity := DataPoint.humidity p |};
     WeatherItem.wind := {| WeatherItem.speed := DataPoint.wind p |} |}.

(** The date portion of a point's timestamp. *)
Definition point_date {num : Type} (p : DataPoint.t num) : string :=
  date_of (DataPoint.dt_txt p).

(** The points of calendar day [d]. *)
Definition on_day {num : Type} (d : string) (p : DataPoint.t num) : bool :=
  point_date p =? d.

(** What one more point of day [d] does to the group held for [d]. *)
Definition day_step {num : Type} `{JsNumber num} (d : string)
  (g : option (Group.t num)) (p : DataPoint.t num) : option (Group.t num) :=
  match g with
  | Some g => Some (accumulate g p)
  | None => if JsObject.inherited d then None else Some (first_of_day p)
  end.

(** The forecast entries of calendar day [d]. *)
Definition observations_of_day {num : Type} (d : string) (items : list (WeatherItem.t num))
  : list (WeatherItem.t num) :=
  filter (fun it => date_of (WeatherItem.dt_txt it) =? d) items.

(** The arithmetic mean of exact numbers. *)
Definition Qc_of_nat (n : nat) : Qc := Q2Qc (inject_Z (Z.of_nat n)).

Definition total (xs : list Qc) : Qc := fold_right Qcplus 0%Qc xs.

Definition mean (xs : list Qc) : Qc := (total xs / Qc_of_nat (length xs))%Qc.

Definition exact (z : Z) : Qc := Q2Qc (inject_Z z).

(** What the [forEach] and the final [map] make of the values [x :: xs] of one
    field over one day, taken in that order: the values added one by one to
    the first, divided by a count that starts at 1 and grows by 1 for every
    further value - each in the arithmetic of the numbers at hand. *)
Definition sum_in_order {num : Type} `{JsNumber num} (x : num) (xs : list num) : num :=
  fold_left num_add xs x.

Definition count_of {num : Type} `{JsNumber num} (further : nat) : num :=
  Nat.iter further (fun c => num_add c num_one) num_one.

Definition mean_in_order {num : Type} `{JsNumber num} (x : num) (xs : list num) : num :=
  num_div (sum_in_order x xs) (count_of (length xs)).

(** The points of day [d] in the order [data.sort] leaves them in. *)
Definition day_in_order {num : Type} (getTime : string -> Z) (d : string)
  (items : list (WeatherItem.t num)) : list (DataPoint.t num) :=
  filter (on_day d) (sorted_points getTime items).

(** The rational number a binary64 number stands for (0 for the infinities
    and NaN, which the examples do not meet). *)
Definition float_exact (x : float) : Qc :=
  match Prim2SF x with
  | S754_finite s m e =>
      Q2Qc ((if s then inject_Z (Z.neg m) else inject_Z (Z.pos m)) * Qpower 2 e)
  | _ => 0%Qc
  end.

(** The date portions of a forecast list, and their order. *)
Definition dates {num : Type} (items : list (WeatherItem.t num)) : list string :=
  map (fun it => date_of (WeatherItem.dt_txt it)) items.

Definition date_leb (a b : string) : bool :=
  match String_as_OT.compare a b with
  | Gt => false
  | _ => true
  end.

(** Every timestamp has the endpoint's shape "YYYY-MM-DD HH:MM:SS". *)
Definition well_formed {num : Type} (items : list (WeatherItem.t num)) : bool :=
  forallb (fun it => JsString.isTimestamp (WeatherItem.dt_txt it)) items.

(** Timestamps are lexically sortable: an entry that parses to no later a
    time than another does not carry a later date. *)
Definition days_follow_time {num : Type} (getTime : string -> Z)
  (items : list (WeatherItem.t num)) : bool :=
  forallb (fun a =>
    forallb (fun b =>
      implb (getTime (WeatherItem.dt_txt a) <=? getTime (WeatherItem.dt_txt b))%Z
            (date_leb (date_of (WeatherItem.dt_txt a)) (date_of (WeatherItem.dt_txt b))))
      items) items.

(** A clock for the examples: the decimal digits of the timestamp read as one
    number, which orders timestamps of the endpoint's shape chronologically. *)
Definition digits_clock (s : string) : Z :=
  let fix go (acc : Z) (s : string) : Z :=
    match s with
    | EmptyString => acc
    | String c s' =>
        if JsString.isDigit c then go (10 * acc + (Z.of_N (N_of_ascii c) - 48))%Z s'
        else go acc s'
    end in
  go 0%Z s.

Definition item {num : Type} (dt : string) (t p h w : num) : WeatherItem.t num :=
  {| WeatherItem.dt_txt := dt;
     WeatherItem.main :=
       {| WeatherItem.temp := t; WeatherItem.pressure := p; WeatherItem.humidity := h |};
     WeatherItem.wind := {| WeatherItem.speed := w |} |}.

(** The forecast of the worked example: two observations of one day. *)
Definition scenario {num : Type} (of_Z : Z -> num) : list (WeatherItem.t num) :=
  [ item "2024-01-01 00:00:00" (of_Z 10) (of_Z 1000) (of_Z 50) (of_Z 2);
    item "2024-01-01 03:00:00" (of_Z 20) (of_Z 1010) (of_Z 60) (of_Z 4) ]%Z.

Definition scenario_point {num : Type} (of_Z : Z -> num) : DataPoint.t num :=
  {| DataPoint.dt_txt := "2024-01-01";
     DataPoint.temp := of_Z 15; DataPoint.pressure := of_Z 1005;
     DataPoint.humidity := of_Z 55; DataPoint.wind := of_Z 3 |}%Z.

Definition scenario_day {num : Type} (of_Z : Z -> num) : list (DataPoint.t num) :=
  [ scenario_point of_Z ].

Definition binary64 (z : Z) : float := PrimFloat.of_uint63 (Uint63.of_Z z).

(** One day of three observations with temperatures 0.1, 0.2 and 0.3, that
    is, the binary64 numbers nearest to them. *)
Definition decimal_forecast : list (WeatherItem.t float) :=
  [ item "2024-01-01 00:00:00" 0x1.999999999999ap-4%float 1000%float 50%float 2%float;
    item "2024-01-01 03:00:00" 0x1.999999999999ap-3%float 1000%float 50%float 2%float;
    item "2024-01-01 06:00:00" 0x1.3333333333333p-2%float 1000%float 50%float 2%float ].

(** A forecast given out of order: two observations of 2 January around one
    of 1 January. *)
Definition shuffled_forecast : list (WeatherItem.t Qc) :=
  [ item "2024-01-02 03:00:00" (exact 6) (exact 1012) (exact 70) (exact 5);
    item "2024-01-01 21:00:00" (exact 4) (exact 1010) (exact 80) (exact 3);
    item "2024-01-02 00:00:00" (exact 2) (exact 1011) (exact 90) (exact 1) ].

(** Two forecasts whose timestamps are not of the endpoint's shape, and a
    clock for the second (a bare year parses as 1 January of that year). *)
Definition odd_forecast : list (WeatherItem.t Qc) :=
  [ item "constructor 00:00:00" (exact 1) (exact 1000) (exact 50) (exact 2) ].

Definition year_forecast : list (WeatherItem.t Qc) :=
  [ item "2024-06-01 00:00:00" (exact 1) (exact 1000) (exact 50) (exact 2);
    item "2025" (exact 3) (exact 1000) (exact 50) (exact 2) ].

Definition year_clock (s : string) : Z :=
  if s =? "2025" then 1735689600000%Z else 1717200000000%Z.

(** A number printer for the examples: an integer is printed as its decimal
    numeral (the coordinates of the examples are integers). *)
Definition numeral (q : Qc) : string :=
  NilZero.string_of_int (Z.to_int (Qnum (this q))).

(** A network without a match for any city, and one that answers. *)
Definition no_match : Network Qc :=
  {| geocode := fun _ _ => inr []; forecast := fun _ _ _ => inr [] |}.

Definition answering : Network Qc :=
  {| geocode := fun _ _ => inr [ {| lat := exact 52; lon := exact 13 |} ];
     forecast := fun _ _ _ => inr shuffled_forecast |}.

Definition typing (name : string) : World Qc :=
  {| view :=
       {| ViewState.city := name; ViewState.cityData := None;
          ViewState.metric := "temp"; ViewState.granularity := "3h";
          ViewState.isLoading := false; ViewState.error := None |};
     requests := [] |}.

Definition showing (series : WeatherData Qc) : World Qc :=
  {| view :=
       {| ViewState.city := city series; ViewState.cityData := Some series;
          ViewState.metric := "temp"; ViewState.granularity := "3h";
          ViewState.isLoading := false; ViewState.error := None |};
     requests := [] |}.

(** The requests one attempt sends, read off the answers it gets. *)
Definition requests_of_attempt {num : Type} (toString : num -> string)
  (API_KEY : option string) (net : Network num) (cityName : string) : list Request :=
  if not_API_KEY API_KEY then []
  else match geocode net cityName (appid API_KEY) with
       | inr (first :: _) =>
           [ Get (geo_url API_KEY cityName);
             Get (forecast_url toString API_KEY (lat first) (lon first)) ]
       | _ => [ Get (geo_url API_KEY cityName) ]
       end.

(** A string of white space only (the empty string included). *)
Definition blank (s : string) : bool :=
  forallb JsString.isWhiteSpace (list_ascii_of_string s).

(** Networks for the examples: one whose geocoder is down, one whose
    forecast endpoint answers 401 after a good geocode answer. *)
Definition geocoder_down : Network Qc :=
  {| geocode := fun _ _ => inl (JsError "Network Error");
     forecast := fun _ _ _ => inr shuffled_forecast |}.

Definition forecast_refused : Network Qc :=
  {| geocode := fun _ _ => inr [ {| lat := exact 52; lon := exact 13 |};
                                {| lat := exact 40; lon := exact 4 |} ];
     forecast := fun _ _ _ => inl (JsError "Request failed with status code 401") |}.

(** ** What the component renders *)

(** The functions handed to elements as props. *)
Inductive Callback : Type :=
| HandleCitySubmit
| HandleInputChange
| HandleMetricChange
| HandleGranularityChange
| RenderCustomTooltip.

(** Prop values: strings, booleans, numbers, functions, the series and
    [null]. *)
Inductive PropValue (num : Type) : Type :=
| VString (s : string)
| VBool (b : bool)
| VNumber (n : Z)
| VCallback (f : Callback)
| VData (d : list (DataPoint.t num))
| VNull.
Arguments VString {num}.
Arguments VBool {num}.
Arguments VNumber {num}.
Arguments VCallback {num}.
Arguments VData {num}.
Arguments VNull {num}.

(** Rendered output: elements with their props and children, text, and
    [null]. *)
#[warnings="-register-all"]
Inductive Node (num : Type) : Type :=
| Element (tag : string) (props : JsObject.t (PropValue num)) (children : list (Node num))
| Text (s : string)
| Null.
Arguments Element {num}.
Arguments Text {num}.
Arguments Null {num}.

(** [{ a: x, b: y, ...props }]: the properties of [props] are written, in
    their order, over the ones listed before the spread. *)
Definition spread {V : Type} (listed props : JsObject.t V) : JsObject.t V :=
  fold_left (fun o kv => JsObject.set o (fst kv) (snd kv)) props listed.

(** [`${className}`] for a class name that may be left out. *)
Definition className_text (className : option string) : string :=
  match className with
  | Some c => c
  | None => "undefined"
  end.

(** [Input]: [className] is taken out of the props, the others are spread
    onto the [input] element after [className] and [ref]. *)
Definition Input {num : Type} (className : option string)
  (props : JsObject.t (PropValue num)) (ref : PropValue num) : Node num :=
  Element "input"
    (spread [ ("className", VString ("px-3 py-2 border rounded-md " ++ className_text className));
              ("ref", ref) ]
            props)
    [].

(** [Button]: as [Input], with [children] taken out as well and rendered
    inside the [button] element. *)
Definition Button {num : Type} (className : option string) (children : list (Node num))
  (props : JsObject.t (PropValue num)) (ref : PropValue num) : Node num :=
  Element "button"
    (spread [ ("className",
               VString ("px-4 py-2 bg-blue-500 text-white rounded-md hover:bg-blue-600 disabled:bg-blue-300 "
                        ++ className_text className));
              ("ref", ref) ]
            props)
    children.

Section Render.
Context {num : Type}.

(** [{error && (<div ...>{error}</div>)}]: [null] and the empty string are
    rendered as they are, any other message inside the banner. *)
Definition error_banner (error : option string) : Node num :=
  match error with
  | None => Null
  | Some m =>
      if JsString.truthy m
      then Element "div" [("className", VString "text-red-500 mb-4")] [Text m]
      else Text m
  end.

(** [{cityData && (<ResponsiveContainer ...>)}] *)
Definition chart (cityData : option (WeatherData num)) (metric : string) : Node num :=
  match cityData with
  | None => Null
  | Some cityData =>
      Element "ResponsiveContainer" [("width", VString "100%"); ("height", VNumber 400)]
        [ Element "LineChart" []
            [ Element "CartesianGrid" [("strokeDasharray", VString "3 3")] [];
              Element "XAxis" [("dataKey", VString "dt_txt")] [];
              Element "YAxis" [] [];
              Element "Tooltip" [("content", VCallback RenderCustomTooltip)] [];
              Element "Legend" [] [];
              Element "Line"
                [ ("type", VString "monotone");
                  ("dataKey", VString metric);
                  ("data", VData (data cityData));
                  ("name", VString (city cityData));
                  ("stroke", VString "hsl(210, 70%, 50%)") ]
                [] ] ]
  end.

Definition option_element (value label : string) : Node num :=
  Element "option" [("value", VString value)] [Text label].

(** The [return] of [WeatherApp]. *)
Definition render (s : ViewState.t num) : Node num :=
  Element "div" [("className", VString "p-4 max-w-4xl mx-auto")]
    [ Element "h1" [("className", VString "text-2xl font-bold mb-4")]
        [Text "Weather Forecast"];
      Element "form"
        [ ("onSubmit", VCallback HandleCitySubmit);
          ("className", VString "flex gap-2 mb-4") ]
        [ Input None
            [ ("value", VString (ViewState.city s));
              ("onChange", VCallback HandleInputChange);
              ("placeholder", VString "Enter city");
              ("disabled", VBool (ViewState.isLoading s)) ]
            VNull;
          Button None
            [ Text (if ViewState.isLoading s then "Loading..." else "Get Forecast") ]
            [ ("type", VString "submit");
              ("disabled", VBool (ViewState.isLoading s)) ]
            VNull ];
      Element "div" [("className", VString "mb-4")]
        [ Element "label" [("htmlFor", VString "metric"); ("className", VString "mr-2")]
            [Text "Select Metric:"];
          Element "select"
            [ ("id", VString "metric");
              ("value", VString (ViewState.metric s));
              ("onChange", VCallback HandleMetricChange);
              ("className", VString "border rounded-md p-2") ]
            [ option_element "temp" "Temperature";
              option_element "pressure" "Pressure";
              option_element "humidity" "Humidity";
              option_element "wind" "Wind Speed" ] ];
      Element "div" [("className", VString "mb-4")]
        [ Element "label" [("htmlFor", VString "granularity"); ("className", VString "mr-2")]
            [Text "Select Granularity:"];
          Element "select"
            [ ("id", VString "granularity");
              ("value", VString (ViewState.granularity s));
              ("onChange", VCallback HandleGranularityChange);
              ("className", VString "border rounded-md p-2") ]
            [ option_element "3h" "3 Hours";
              option_element "day" "Day" ] ];
      error_banner (ViewState.error s);
      chart (ViewState.cityData s) (ViewState.metric s) ].

(** The banner that shows message [m]. *)
Definition banner (m : string) : Node num :=
  Element "div" [("className", VString "text-red-500 mb-4")] [Text m].

(** A node and everything below it. *)
Fixpoint descendants (n : Node num) : list (Node num) :=
  n :: match n with
       | Element _ _ children => flat_map descendants children
       | _ => []
       end.

(** The elements of a tree that carry a given tag. *)
Definition has_tag (tag : string) (n : Node num) : bool :=
  match n with
  | Element t _ _ => t =? tag
  | _ => false
  end.

Definition elements (tag : string) (root : Node num) : list (Node num) :=
  filter (has_tag tag) (descendants root).

Definition prop (name : string) (n : Node num) : option (PropValue num) :=
  match n with
  | Element _ props _ => JsObject.own props name
  | _ => None
  end.

End Render.

(** * Properties of the pipeline *)

Section SortFacts.
Context {A : Type} (key : A -> Z).

Lemma sort_insert_length x l : length (sort_insert (by_key key) x l) = S (length l).
Proof.
  induction l as [|y l IH]; simpl; [reflexivity|].
  destruct ((by_key key) x y <=? 0)%Z; simpl; congruence.
Qed.

Lemma Array_sort_length l : length (Array_sort (by_key key) l) = length l.
Proof.
  induction l as [|x l IH]; simpl; [reflexivity|].
  now rewrite sort_insert_length, IH.
Qed.

Lemma sort_insert_perm x l : Permutation (x :: l) (sort_insert (by_key key) x l).
Proof.
  induction l as [|y l IH]; simpl; [reflexivity|].
  destruct ((by_key key) x y <=? 0)%Z; [reflexivity|].
  rewrite perm_swap. now constructor.
Qed.

Lemma Array_sort_perm l : Permutation l (Array_sort (by_key key) l).
Proof.
  induction l as [|x l IH]; simpl; [constructor|].
  rewrite <- sort_insert_perm. now constructor.
Qed.

Lemma sort_insert_sorted x l :
  StronglySorted (key_le key) l -> StronglySorted (key_le key) (sort_insert (by_key key) x l).
Proof.
  induction 1 as [|y l Hl IH Hy]; simpl.
  - repeat constructor.
  - unfold by_key at 1. destruct (Z.leb_spec (key x - key y) 0) as [Hle|Hgt].
    + constructor; [now constructor|].
      constructor; [unfold key_le; lia|].
      eapply Forall_impl; [|exact Hy]. unfold key_le. intros z Hz. simpl in Hz. lia.
    + constructor; [exact IH|].
      eapply Permutation_Forall; [apply sort_insert_perm|].
      constructor; [unfold key_le; lia|exact Hy].
Qed.

Lemma Array_sort_sorted l : StronglySorted (key_le key) (Array_sort (by_key key) l).
Proof.
  induction l as [|x l IH]; simpl; [constructor|].
  now apply sort_insert_sorted.
Qed.

(** Sorting leaves a sorted list as it is. *)
Lemma Array_sort_fixed l : StronglySorted (key_le key) l -> Array_sort (by_key key) l = l.
Proof.
  induction 1 as [|x l Hl IH Hx]; simpl; [reflexivity|].
  rewrite IH. destruct Hx as [|y l Hxy _]; simpl; [reflexivity|].
  unfold by_key. destruct (Z.leb_spec (key x - key y) 0) as [_|Hgt]; [reflexivity|].
  unfold key_le in Hxy. lia.
Qed.

(** Stability: the elements of each key keep their relative order. *)
Lemma sort_insert_stable k x l :
  StronglySorted (key_le key) l ->
  filter (fun y => (key y =? k)%Z) (sort_insert (by_key key) x l)
  = filter (fun y => (key y =? k)%Z) (x :: l).
Proof.
  induction 1 as [|y l Hl IH Hy]; [reflexivity|].
  cbn [sort_insert]. unfold by_key at 1.
  destruct (Z.leb_spec (key x - key y) 0) as [Hle|Hgt]; [reflexivity|].
  cbn [filter] in *. rewrite IH.
  destruct (Z.eqb_spec (key x) k) as [Hx|Hx], (Z.eqb_spec (key y) k) as [Hk|Hk];
    try reflexivity.
  lia.
Qed.

Lemma Array_sort_stable k l :
  filter (fun y => (key y =? k)%Z) (Array_sort (by_key key) l)
  = filter (fun y => (key y =? k)%Z) l.
Proof.
  induction l as [|x l IH]; [reflexivity|].
  cbn [Array_sort]. rewrite sort_insert_stable by apply Array_sort_sorted.
  cbn [filter]. now rewrite IH.
Qed.

End SortFacts.

Section ThreeHourFacts.
Context {num : Type} `{JsNumber num}.
Variable getTime : string -> Z.


Lemma normalize_3h items :
  normalize getTime "3h" items = Array_sort (by_time getTime) (map flatten items).
Proof. reflexivity. Qed.

Lemma normalize_day items :
  normalize getTime "day" items
  = averages (group_by_day (Array_sort (by_time getTime) (map flatten items))).
Proof. reflexivity. Qed.

Lemma normalize_not_day g items :
  g <> "day" ->
  normalize getTime g items = Array_sort (by_time getTime) (map flatten items).
Proof.
  intros Hg. unfold normalize.
  destruct (String.eqb_spec g "day") as [E|_]; [contradiction|reflexivity].
Qed.

Lemma sorted_data_ascending (l : list (DataPoint.t num)) :
  ascending getTime (Array_sort (by_time getTime) l).
Proof. exact (Array_sort_sorted (time_of getTime) l). Qed.

Lemma sorted_data_length (l : list (DataPoint.t num)) :
  length (Array_sort (by_time getTime) l) = length l.
Proof. exact (Array_sort_length (time_of getTime) l). Qed.

Lemma sorted_data_perm (l : list (DataPoint.t num)) :
  Permutation l (Array_sort (by_time getTime) l).
Proof. exact (Array_sort_perm (time_of getTime) l). Qed.

Lemma ascending_fixed (l : list (DataPoint.t num)) :
  ascending getTime l -> Array_sort (by_time getTime) l = l.
Proof. exact (Array_sort_fixed (time_of getTime) l). Qed.

Lemma flatten_as_item (p : DataPoint.t num) : flatten (as_item p) = p.
Proof. now destruct p. Qed.

Lemma map_flatten_as_item (l : list (DataPoint.t num)) : map flatten (map as_item l) = l.
Proof.
  rewrite map_map. rewrite <- (map_id l) at 2.
  apply map_ext. exact flatten_as_item.
Qed.

(** C2: for a non-empty forecast list, the "3h" output is in ascending order
    of parsed timestamp and has as many points as the list has entries. *)
Theorem three_hour_sorted_same_length (items : list (WeatherItem.t num)) :
  items <> [] ->
  ascending getTime (normalize getTime "3h" items)
  /\ length (normalize getTime "3h" items) = length items.
Proof.
  intros _. rewrite normalize_3h. split.
  - apply sorted_data_ascending.
  - rewrite sorted_data_length. apply length_map.
Qed.

(** C5: every granularity other than "day", recognised or not, gives the
    output of granularity "3h". *)
Theorem other_granularity_is_three_hour (g : string) (items : list (WeatherItem.t num)) :
  g <> "day" ->
  normalize getTime g items = normalize getTime "3h" items.
Proof.
  intros Hg. now rewrite normalize_3h, normalize_not_day.
Qed.

(** C7: running the pipeline at "3h" on its own "3h" output gives that output
    back. *)
Theorem three_hour_idempotent (items : list (WeatherItem.t num)) :
  normalize getTime "3h" (map as_item (normalize getTime "3h" items))
  = normalize getTime "3h" items.
Proof.
  rewrite (normalize_3h (map as_item _)), map_flatten_as_item.
  apply ascending_fixed. rewrite normalize_3h. apply sorted_data_ascending.
Qed.

(** C10: an empty forecast list gives an empty series at both granularities. *)
Theorem empty_forecast_empty_series :
  normalize getTime "3h" (@nil (WeatherItem.t num)) = []
  /\ normalize getTime "day" (@nil (WeatherItem.t num)) = [].
Proof. split; reflexivity. Qed.

End ThreeHourFacts.

(** ** Objects *)

Section ObjectFacts.
Context {V : Type}.
Implicit Types (o : JsObject.t V) (k : string) (v : V).

Lemma own_set_same o k v : JsObject.own (JsObject.set o k v) k = Some v.
Proof.
  induction o as [|[k' v'] o IH]; simpl.
  - now rewrite String.eqb_refl.
  - destruct (String.eqb_spec k' k) as [E|E]; simpl.
    + now rewrite E, String.eqb_refl.
    + now destruct (String.eqb_spec k' k).
Qed.

Lemma own_set_other o k v k' :
  k' <> k -> JsObject.own (JsObject.set o k v) k' = JsObject.own o k'.
Proof.
  intros Hk. induction o as [|[k0 v0] o IH]; simpl.
  - destruct (String.eqb_spec k k'); [congruence|reflexivity].
  - destruct (String.eqb_spec k0 k) as [E|E]; simpl.
    + subst k0. now destruct (String.eqb_spec k k'); [congruence|].
    + now rewrite IH.
Qed.

Lemma own_none_iff o k : JsObject.own o k = None <-> ~ In k (map fst o).
Proof.
  induction o as [|[k' v'] o IH]; simpl; [tauto|].
  destruct (String.eqb_spec k' k) as [E|E].
  - split; [discriminate|]. intros Hn. exfalso. apply Hn. now left.
  - rewrite IH. tauto.
Qed.

Lemma own_some_in o k v : JsObject.own o k = Some v -> In k (map fst o).
Proof.
  intros Hv. destruct (in_dec string_dec k (map fst o)) as [Hin|Hout]; [exact Hin|].
  apply own_none_iff in Hout. congruence.
Qed.

Lemma set_keys_present o k v :
  In k (map fst o) -> map fst (JsObject.set o k v) = map fst o.
Proof.
  induction o as [|[k' v'] o IH]; simpl; [tauto|].
  intros Hin. destruct (String.eqb_spec k' k) as [E|E]; simpl; [reflexivity|].
  f_equal. apply IH. destruct Hin; [contradiction|assumption].
Qed.

Lemma set_keys_absent o k v :
  ~ In k (map fst o) -> map fst (JsObject.set o k v) = map fst o ++ [k].
Proof.
  induction o as [|[k' v'] o IH]; simpl; [reflexivity|].
  intros Hout. destruct (String.eqb_spec k' k) as [E|E]; simpl; [tauto|].
  f_equal. apply IH. tauto.
Qed.

Lemma insert_index_perm e l : Permutation (e :: l) (JsObject.insert_index e l).
Proof.
  induction l as [|e' l IH]; simpl; [reflexivity|].
  destruct (fst e <=? fst e')%N; [reflexivity|].
  rewrite perm_swap. now constructor.
Qed.

Lemma index_keys_in ks n k :
  In (n, k) (JsObject.index_keys ks) <-> In k ks /\ JsString.arrayIndex k = Some n.
Proof.
  unfold JsObject.index_keys. rewrite in_flat_map. split.
  - intros (k' & Hin & Hk). destruct (JsString.arrayIndex k') as [m|] eqn:E; simpl in Hk.
    + destruct Hk as [Hk|[]]. inversion Hk; subst. tauto.
    + contradiction.
  - intros (Hin & E). exists k. split; [exact Hin|]. rewrite E. now left.
Qed.

(** [Object.keys] lists the own property names, each once per own property. *)
Lemma keys_in o k : In k (JsObject.keys o) <-> In k (map fst o).
Proof.
  unfold JsObject.keys. rewrite in_app_iff, filter_In, in_map_iff. split.
  - intros [((n, k') & Hk & Hin)|[Hin _]]; [|exact Hin].
    simpl in Hk. subst k'. revert Hin.
    assert (Hp : Permutation (JsObject.index_keys (map fst o))
                   (fold_right JsObject.insert_index [] (JsObject.index_keys (map fst o)))).
    { induction (JsObject.index_keys (map fst o)) as [|e l IH]; simpl; [constructor|].
      rewrite <- insert_index_perm. now constructor. }
    intros Hin. eapply Permutation_in in Hin; [|symmetry; exact Hp].
    now apply index_keys_in in Hin.
  - intros Hin. destruct (JsString.arrayIndex k) as [n|] eqn:E; [left|right; tauto].
    exists (n, k). split; [reflexivity|].
    assert (Hp : Permutation (JsObject.index_keys (map fst o))
                   (fold_right JsObject.insert_index [] (JsObject.index_keys (map fst o)))).
    { induction (JsObject.index_keys (map fst o)) as [|e l IH]; simpl; [constructor|].
      rewrite <- insert_index_perm. now constructor. }
    eapply Permutation_in; [exact Hp|]. now apply index_keys_in.
Qed.

(** What [Object.keys] lists can be read back as an own property. *)
Lemma keys_own o k : In k (JsObject.keys o) -> exists v, JsObject.own o k = Some v.
Proof.
  rewrite keys_in. intros Hin.
  destruct (JsObject.own o k) as [v|] eqn:E; [now exists v|].
  apply own_none_iff in E. contradiction.
Qed.

(** Without array-index keys, [Object.keys] is the creation order. *)
Lemma keys_creation_order o :
  Forall (fun k => JsString.arrayIndex k = None) (map fst o) ->
  JsObject.keys o = map fst o.
Proof.
  unfold JsObject.keys, JsObject.index_keys.
  induction (map fst o) as [|k ks IH]; [reflexivity|].
  intros Hall. inversion Hall as [|? ? Hk Hks]; subst.
  specialize (IH Hks). simpl. rewrite Hk. simpl.
  destruct (flat_map _ ks) as [|e l] eqn:E.
  - simpl in *. now rewrite IH.
  - exfalso. assert (Hin : In e (e :: l)) by now left.
    rewrite <- E in Hin. apply in_flat_map in Hin. destruct Hin as (k' & Hk' & He).
    rewrite Forall_forall in Hks. rewrite (Hks k' Hk') in He. exact He.
Qed.

End ObjectFacts.

(** ** Grouping by day *)

Section GroupFacts.
Context {num : Type} `{JsNumber num}.
Implicit Types (o : JsObject.t (Group.t num)) (p : DataPoint.t num) (d : string).

Lemma own_group_item o p d :
  JsObject.own (group_item o p) d
  = if on_day d p then day_step d (JsObject.own o d) p else JsObject.own o d.
Proof.
  unfold group_item, on_day, point_date, JsObject.get.
  destruct (String.eqb_spec (date_of (DataPoint.dt_txt p)) d) as [E|E].
  - subst d. destruct (JsObject.own o _) as [g|] eqn:Hown; simpl.
    + apply own_set_same.
    + destruct (JsObject.inherited _); simpl; [exact Hown|apply own_set_same].
  - destruct (JsObject.own o (date_of _)) as [g|] eqn:Hown.
    + now apply own_set_other.
    + destruct (JsObject.inherited _); [reflexivity|]. now apply own_set_other.
Qed.

Lemma own_group_fold l o d :
  JsObject.own (fold_left group_item l o) d
  = fold_left (day_step d) (filter (on_day d) l) (JsObject.own o d).
Proof.
  revert o. induction l as [|p l IH]; intros o; simpl; [reflexivity|].
  rewrite IH, own_group_item. now destruct (on_day d p).
Qed.

Lemma day_step_some l d g :
  fold_left (day_step d) l (Some g) = Some (fold_left accumulate l g).
Proof.
  revert g. induction l as [|p l IH]; intros g; simpl; [reflexivity|apply IH].
Qed.

Lemma day_step_inherited l d :
  JsObject.inherited d = true -> fold_left (day_step d) l None = None.
Proof.
  intros Hd. induction l as [|p l IH]; simpl; [reflexivity|].
  now rewrite Hd.
Qed.

(** The group kept for a day is the day's first point with the day's later
    points added to it in order. *)
Lemma group_of_day l d g :
  JsObject.own (group_by_day l) d = Some g ->
  JsObject.inherited d = false
  /\ exists p ps, filter (on_day d) l = p :: ps
                  /\ g = fold_left accumulate ps (first_of_day p).
Proof.
  unfold group_by_day. rewrite own_group_fold. simpl.
  destruct (JsObject.inherited d) eqn:Hd.
  - now rewrite day_step_inherited.
  - destruct (filter (on_day d) l) as [|p ps]; simpl; [discriminate|].
    rewrite Hd, day_step_some. intros [= <-]. split; [reflexivity|].
    now exists p, ps.
Qed.

Lemma day_has_group l d :
  JsObject.inherited d = false ->
  In d (map point_date l) ->
  exists g, JsObject.own (group_by_day l) d = Some g.
Proof.
  intros Hd Hin. unfold group_by_day. rewrite own_group_fold. simpl.
  destruct (filter (on_day d) l) as [|p ps] eqn:E.
  - exfalso. apply in_map_iff in Hin. destruct Hin as (p & Hp & Hin).
    assert (Hf : In p (filter (on_day d) l)).
    { apply filter_In. split; [exact Hin|]. unfold on_day. rewrite Hp. apply String.eqb_refl. }
    now rewrite E in Hf.
  - simpl. rewrite Hd, day_step_some. eauto.
Qed.

Lemma averages_in o (pt : DataPoint.t num) :
  In pt (averages o) <->
  exists d g, In d (JsObject.keys o) /\ JsObject.own o d = Some g /\ pt = average d g.
Proof.
  unfold averages. rewrite in_flat_map. split.
  - intros (d & Hd & Hpt). destruct (JsObject.own o d) as [g|] eqn:E; [|contradiction].
    destruct Hpt as [<-|[]]. now exists d, g.
  - intros (d & g & Hd & Hg & ->). exists d. split; [exact Hd|]. rewrite Hg. now left.
Qed.

(** One output point per listed key, under that key's name. *)
Lemma averages_dates o : map DataPoint.dt_txt (averages o) = JsObject.keys o.
Proof.
  unfold averages.
  assert (Hown : forall d, In d (JsObject.keys o) -> exists g, JsObject.own o d = Some g)
    by apply keys_own.
  induction (JsObject.keys o) as [|d ks IH]; [reflexivity|].
  simpl. destruct (Hown d (or_introl eq_refl)) as [g ->]. simpl.
  f_equal. apply IH. intros d' Hd'. apply Hown. now right.
Qed.

End GroupFacts.

(** ** Daily means, in exact arithmetic *)

Section MeanFacts.

Lemma Qc_of_nat_succ n : Qc_of_nat (S n) = (Qc_of_nat n + 1)%Qc.
Proof.
  apply Qc_is_canon. unfold Qc_of_nat. cbn [Qcplus this Q2Qc].
  rewrite !Qred_correct. unfold Qeq, inject_Z. simpl Qnum. simpl Qden. lia.
Qed.

Lemma Qc_of_nat_one : Qc_of_nat 1 = 1%Qc.
Proof. now apply Qc_is_canon. Qed.

Lemma total_perm xs ys : Permutation xs ys -> total xs = total ys.
Proof.
  induction 1 as [|x xs ys _ IH|x y xs|xs ys zs _ IH1 _ IH2]; simpl.
  - reflexivity.
  - now rewrite IH.
  - ring.
  - congruence.
Qed.

Lemma mean_perm xs ys : Permutation xs ys -> mean xs = mean ys.
Proof.
  intros Hp. unfold mean. now rewrite (total_perm _ _ Hp), (Permutation_length Hp).
Qed.

Lemma mean_single x : mean [x] = x.
Proof.
  unfold mean. simpl. rewrite Qc_of_nat_one.
  rewrite Qcplus_0_r. unfold Qcdiv. change (/ 1)%Qc with 1%Qc. ring.
Qed.

Lemma filter_perm {A : Type} (f : A -> bool) l l' :
  Permutation l l' -> Permutation (filter f l) (filter f l').
Proof.
  induction 1 as [|x l l' _ IH|x y l|l l' l'' _ IH1 _ IH2]; simpl.
  - constructor.
  - destruct (f x); [now constructor|exact IH].
  - destruct (f x), (f y); try reflexivity. apply perm_swap.
  - now transitivity (filter f l').
Qed.

(** What the [+=] have summed into a group. *)
Lemma accumulate_totals (ps : list (DataPoint.t Qc)) (g : Group.t Qc) :
  let g' := fold_left accumulate ps g in
  Group.temp g' = (Group.temp g + total (map DataPoint.temp ps))%Qc
  /\ Group.pressure g' = (Group.pressure g + total (map DataPoint.pressure ps))%Qc
  /\ Group.humidity g' = (Group.humidity g + total (map DataPoint.humidity ps))%Qc
  /\ Group.wind g' = (Group.wind g + total (map DataPoint.wind ps))%Qc
  /\ Group.count g' = (Group.count g + Qc_of_nat (length ps))%Qc.
Proof.
  revert g. induction ps as [|p ps IH]; intros g; simpl.
  - change (Qc_of_nat 0) with 0%Qc. repeat split; ring.
  - destruct (IH (accumulate g p)) as (Ht & Hp & Hh & Hw & Hc).
    rewrite Ht, Hp, Hh, Hw, Hc, Qc_of_nat_succ. simpl. repeat split; ring.
Qed.

Lemma average_means (d : string) (p : DataPoint.t Qc) (ps : list (DataPoint.t Qc)) :
  average d (fold_left accumulate ps (first_of_day p))
  = {| DataPoint.dt_txt := d;
       DataPoint.temp := mean (map DataPoint.temp (p :: ps));
       DataPoint.pressure := mean (map DataPoint.pressure (p :: ps));
       DataPoint.humidity := mean (map DataPoint.humidity (p :: ps));
       DataPoint.wind := mean (map DataPoint.wind (p :: ps)) |}.
Proof.
  destruct (accumulate_totals ps (first_of_day p)) as (Ht & Hp & Hh & Hw & Hc).
  unfold average, mean. rewrite Ht, Hp, Hh, Hw, Hc.
  cbn [length map total fold_right]. rewrite !length_map, Qc_of_nat_succ.
  cbn [first_of_day Group.temp Group.pressure Group.humidity Group.wind Group.count].
  change (@num_one Qc Qc_JsNumber) with 1%Qc.
  now rewrite (Qcplus_comm 1).
Qed.

End MeanFacts.

Section DailyMeans.
Variable getTime : string -> Z.

Lemma filter_on_day_flatten {num : Type} d (items : list (WeatherItem.t num)) :
  filter (on_day d) (map flatten items) = map flatten (observations_of_day d items).
Proof.
  unfold observations_of_day. induction items as [|it items IH]; simpl; [reflexivity|].
  unfold on_day at 1. simpl. destruct (_ =? d); simpl; now rewrite IH.
Qed.

Lemma day_values {num B : Type} (f : DataPoint.t num -> B) d (items : list (WeatherItem.t num)) :
  Permutation
    (map f (filter (on_day d) (Array_sort (by_time getTime) (map flatten items))))
    (map (fun it => f (flatten it)) (observations_of_day d items)).
Proof.
  rewrite <- (map_map flatten f), <- filter_on_day_flatten.
  apply Permutation_map, filter_perm. symmetry. apply sorted_data_perm.
Qed.

(** Each daily point is the mean of the forecast entries of its date. *)
Lemma day_point_means (items : list (WeatherItem.t Qc)) (pt : DataPoint.t Qc) :
  In pt (normalize getTime "day" items) ->
  let day := observations_of_day (DataPoint.dt_txt pt) items in
  day <> []
  /\ DataPoint.temp pt = mean (map (fun it => WeatherItem.temp (WeatherItem.main it)) day)
  /\ DataPoint.pressure pt = mean (map (fun it => WeatherItem.pressure (WeatherItem.main it)) day)
  /\ DataPoint.humidity pt = mean (map (fun it => WeatherItem.humidity (WeatherItem.main it)) day)
  /\ DataPoint.wind pt = mean (map (fun it => WeatherItem.speed (WeatherItem.wind it)) day).
Proof.
  rewrite normalize_day, averages_in. intros (d & g & _ & Hg & ->).
  apply group_of_day in Hg. destruct Hg as (_ & p & ps & Hday & ->).
  rewrite average_means. cbn [DataPoint.dt_txt DataPoint.temp DataPoint.pressure
    DataPoint.humidity DataPoint.wind]. rewrite <- Hday.
  split.
  - intros E. pose proof (day_values (fun q => q) d items) as Hp.
    rewrite Hday, E in Hp. apply Permutation_length in Hp. discriminate Hp.
  - repeat split; apply mean_perm.
    + exact (day_values DataPoint.temp d items).
    + exact (day_values DataPoint.pressure d items).
    + exact (day_values DataPoint.humidity d items).
    + exact (day_values DataPoint.wind d items).
Qed.

Lemma scenario_exact : normalize getTime "day" (scenario exact) = scenario_day exact.
Proof.
  unfold normalize, scenario, scenario_day, scenario_point.
  cbn [map flatten String.eqb Ascii.eqb Bool.eqb Array_sort sort_insert].
  destruct (_ <=? 0)%Z; cbn -[exact Qcplus Qcdiv]; unfold average;
    f_equal; f_equal; apply Qc_is_canon; reflexivity.
Qed.

(** The worked example in IEEE binary64 arithmetic, as the engine computes it. *)
Example scenario_binary64 :
  normalize getTime "day" (scenario binary64) = scenario_day binary64.
Proof.
  unfold normalize, scenario, scenario_day, scenario_point.
  cbn [map flatten String.eqb Ascii.eqb Bool.eqb Array_sort sort_insert].
  destruct (_ <=? 0)%Z; vm_compute; reflexivity.
Qed.

Lemma count_of_succ {num : Type} `{JsNumber num} (n : nat) (c : num) :
  Nat.iter n (fun c => num_add c num_one) (num_add c num_one)
  = Nat.iter (S n) (fun c => num_add c num_one) c.
Proof. induction n as [|n IH]; [reflexivity|]. simpl in *. now rewrite IH. Qed.

(** What the [+=] have made of a group, in any arithmetic. *)
Lemma accumulate_in_order {num : Type} `{JsNumber num}
  (ps : list (DataPoint.t num)) (g : Group.t num) :
  let g' := fold_left accumulate ps g in
  Group.temp g' = sum_in_order (Group.temp g) (map DataPoint.temp ps)
  /\ Group.pressure g' = sum_in_order (Group.pressure g) (map DataPoint.pressure ps)
  /\ Group.humidity g' = sum_in_order (Group.humidity g) (map DataPoint.humidity ps)
  /\ Group.wind g' = sum_in_order (Group.wind g) (map DataPoint.wind ps)
  /\ Group.count g' = Nat.iter (length ps) (fun c => num_add c num_one) (Group.count g).
Proof.
  revert g. induction ps as [|p ps IH]; intros g; [now cbn|].
  destruct (IH (accumulate g p)) as (Ht & Hp & Hh & Hw & Hc).
  cbn [fold_left map length]. cbv zeta. rewrite Ht, Hp, Hh, Hw, Hc.
  cbn [accumulate Group.temp Group.pressure Group.humidity Group.wind Group.count].
  rewrite count_of_succ. now cbn.
Qed.

Lemma StronglySorted_filter {A : Type} (R : A -> A -> Prop) (f : A -> bool) l :
  StronglySorted R l -> StronglySorted R (filter f l).
Proof.
  induction 1 as [|x l Hl IH Hx]; simpl; [constructor|].
  destruct (f x); [|exact IH]. constructor; [exact IH|].
  rewrite Forall_forall in *. intros y Hy. apply filter_In in Hy. now apply Hx.
Qed.

(** Each daily point, in any arithmetic: the day's points in sorted order,
    added up from the first and divided by their count. *)
Lemma day_point_in_order {num : Type} `{JsNumber num}
  (items : list (WeatherItem.t num)) (pt : DataPoint.t num) :
  In pt (normalize getTime "day" items) ->
  exists p ps,
    day_in_order getTime (DataPoint.dt_txt pt) items = p :: ps
    /\ Permutation (p :: ps)
         (map flatten (observations_of_day (DataPoint.dt_txt pt) items))
    /\ ascending getTime (p :: ps)
    /\ DataPoint.temp pt = mean_in_order (DataPoint.temp p) (map DataPoint.temp ps)
    /\ DataPoint.pressure pt
       = mean_in_order (DataPoint.pressure p) (map DataPoint.pressure ps)
    /\ DataPoint.humidity pt
       = mean_in_order (DataPoint.humidity p) (map DataPoint.humidity ps)
    /\ DataPoint.wind pt = mean_in_order (DataPoint.wind p) (map DataPoint.wind ps).
Proof.
  rewrite normalize_day, averages_in. intros (d & g & _ & Hg & ->).
  apply group_of_day in Hg. destruct Hg as (_ & p & ps & Hday & ->).
  exists p, ps. cbn [DataPoint.dt_txt average]. unfold day_in_order, sorted_points.
  split; [exact Hday|]. split; [|split].
  - rewrite <- Hday, <- filter_on_day_flatten. apply filter_perm. symmetry.
    apply sorted_data_perm.
  - rewrite <- Hday. apply StronglySorted_filter, sorted_data_ascending.
  - destruct (accumulate_in_order ps (first_of_day p)) as (Ht & Hp & Hh & Hw & Hc).
    unfold average, mean_in_order, count_of.
    cbn [DataPoint.temp DataPoint.pressure DataPoint.humidity DataPoint.wind].
    rewrite Ht, Hp, Hh, Hw, Hc, !length_map. now cbn.
Qed.

(** Division by 1 changes no binary64 number. *)
Lemma div_eucl_mul (a b : Z) : (0 < b)%Z -> Z.div_eucl (a * b) b = (a, 0%Z).
Proof.
  intros Hb. pose proof (Z.div_mul a b ltac:(lia)) as Hq.
  pose proof (Z.mod_mul a b ltac:(lia)) as Hr.
  unfold Z.div, Z.modulo in Hq, Hr. destruct (Z.div_eucl (a * b) b) as [q r].
  simpl in *. congruence.
Qed.

Lemma SFdiv_one_finite sx mx ex :
  bounded prec emax mx ex = true ->
  SFdiv prec emax (S754_finite sx mx ex) (S754_finite false 4503599627370496 (-52))
  = S754_finite sx mx ex.
Proof.
  unfold bounded, canonical_mantissa, fexp, emin, prec, emax.
  intros Hb. apply andb_prop in Hb. destruct Hb as [Hc He].
  apply Z.eqb_eq in Hc. apply Z.leb_le in He.
  set (d := Z.pos (digits2_pos mx)) in *.
  assert (Hd : (0 < d)%Z) by (unfold d; lia).
  unfold SFdiv, SFdiv_core_binary.
  change (Zdigits2 (Z.pos mx)) with d.
  change (Zdigits2 4503599627370496) with 53%Z.
  unfold fexp, emin.
  destruct (Z.eq_dec ex (-1074)) as [Hex|Hex].
  - assert (He' : Z.min (Z.max (d + ex - (53 + -52) - 53) (3 - 1024 - 53)) (ex - -52) = ex)
      by lia.
    rewrite He'. replace (ex - -52 - ex)%Z with 52%Z by lia.
    rewrite Z.shiftl_mul_pow2 by lia. change (2 ^ 52)%Z with 4503599627370496%Z.
    rewrite div_eucl_mul by lia.
    change (new_location 4503599627370496 0) with loc_Exact.
    unfold binary_round_aux, shr_fexp, fexp, emin.
    change (Zdigits2 (Z.pos mx)) with d.
    replace (Z.max (d + ex - 53) (3 - 1024 - 53) - ex)%Z with 0%Z by lia.
    cbn [shr shr_record_of_loc shr_m loc_of_shr_record round_nearest_even].
    change (Zdigits2 (Z.pos mx)) with d.
    replace (Z.max (d + ex - 53) (3 - 1024 - 53) - ex)%Z with 0%Z by lia.
    cbn [shr shr_record_of_loc shr_m].
    replace (ex <=? 1024 - 53)%Z with true by (symmetry; apply Z.leb_le; lia).
    now destruct sx.
  - assert (Hd53 : d = 53%Z) by lia.
    assert (He' : Z.min (Z.max (d + ex - (53 + -52) - 53) (3 - 1024 - 53)) (ex - -52)
                  = (ex - 1)%Z) by lia.
    rewrite He'. replace (ex - -52 - (ex - 1))%Z with 53%Z by lia.
    rewrite Z.shiftl_mul_pow2 by lia.
    replace (Z.pos mx * 2 ^ 53)%Z with (Z.pos mx~0 * 4503599627370496)%Z by lia.
    rewrite div_eucl_mul by lia.
    change (new_location 4503599627370496 0) with loc_Exact.
    unfold binary_round_aux, shr_fexp, fexp, emin.
    change (Zdigits2 (Z.pos mx~0)) with (Z.pos (Pos.succ (digits2_pos mx))).
    rewrite Pos2Z.inj_succ. fold d.
    replace (Z.max (Z.succ d + (ex - 1) - 53) (3 - 1024 - 53) - (ex - 1))%Z with 1%Z by lia.
    cbn [shr shr_record_of_loc shr_m loc_of_shr_record round_nearest_even iter_pos shr_1 orb].
    change (Zdigits2 (Z.pos mx)) with d.
    replace (Z.max (d + (ex - 1 + 1) - 53) (3 - 1024 - 53) - (ex - 1 + 1))%Z with 0%Z by lia.
    cbn [shr shr_record_of_loc shr_m].
    replace (ex - 1 + 1 <=? 1024 - 53)%Z with true by (symmetry; apply Z.leb_le; lia).
    replace (ex - 1 + 1)%Z with ex by lia.
    now destruct sx.
Qed.

Lemma float_div_one (x : float) : (x / 1)%float = x.
Proof.
  apply Prim2SF_inj. rewrite div_spec.
  change (Prim2SF 1) with (S754_finite false 4503599627370496 (-52)).
  generalize (Prim2SF_valid x). unfold valid_binary.
  destruct (Prim2SF x) as [b|b| |sx mx ex]; cbn [SpecFloat.valid_binary]; intros Hv.
  - now destruct b.
  - now destruct b.
  - reflexivity.
  - now apply SFdiv_one_finite.
Qed.

Lemma Qc_div_one (x : Qc) : (x / 1)%Qc = x.
Proof. unfold Qcdiv. change (/ 1)%Qc with 1%Qc. ring. Qed.

(** A day of one entry, in any arithmetic in which division by 1 changes
    nothing. *)
Lemma single_entry_day {num : Type} `{JsNumber num}
  (items : list (WeatherItem.t num)) (pt : DataPoint.t num) (it : WeatherItem.t num) :
  (forall x : num, num_div x num_one = x) ->
  In pt (normalize getTime "day" items) ->
  observations_of_day (DataPoint.dt_txt pt) items = [it] ->
  pt = {| DataPoint.dt_txt := date_of (WeatherItem.dt_txt it);
          DataPoint.temp := WeatherItem.temp (WeatherItem.main it);
          DataPoint.pressure := WeatherItem.pressure (WeatherItem.main it);
          DataPoint.humidity := WeatherItem.humidity (WeatherItem.main it);
          DataPoint.wind := WeatherItem.speed (WeatherItem.wind it) |}.
Proof.
  intros Hone Hin Hday.
  destruct (day_point_in_order items pt Hin) as (p & ps & _ & Hperm & _ & Ht & Hp & Hh & Hw).
  rewrite Hday in Hperm. cbn [map] in Hperm. symmetry in Hperm.
  apply Permutation_length_1_inv in Hperm. injection Hperm as -> ->.
  unfold mean_in_order, sum_in_order, count_of in Ht, Hp, Hh, Hw.
  cbn in Ht, Hp, Hh, Hw. rewrite Hone in Ht, Hp, Hh, Hw.
  assert (Hd : date_of (WeatherItem.dt_txt it) = DataPoint.dt_txt pt).
  { assert (Hit : In it (observations_of_day (DataPoint.dt_txt pt) items))
      by (rewrite Hday; now left).
    apply filter_In in Hit. now apply String.eqb_eq. }
  destruct pt; simpl in *. now subst.
Qed.

(** C1, as corrected: at granularity "day" every output point carries, in
    each numeric field, the values of that field over the forecast entries
    whose date portion is the point's date, added one by one in ascending
    order of parsed time to the first of them and divided by their count, the
    additions and the division being those of the arithmetic at hand
    (binary64 in the engine); in exact arithmetic that is the arithmetic
    mean; the worked example gives [{"2024-01-01",15,1005,55,3}], in binary64
    as in exact arithmetic; and a day with a single entry yields that entry's
    own values, in binary64 as in exact arithmetic. *)
Theorem day_output_is_mean_in_order :
  (forall (num : Type) (N : JsNumber num)
          (items : list (WeatherItem.t num)) (pt : DataPoint.t num),
      In pt (normalize getTime "day" items) ->
      exists p ps,
        day_in_order getTime (DataPoint.dt_txt pt) items = p :: ps
        /\ Permutation (p :: ps)
             (map flatten (observations_of_day (DataPoint.dt_txt pt) items))
        /\ ascending getTime (p :: ps)
        /\ DataPoint.temp pt = mean_in_order (DataPoint.temp p) (map DataPoint.temp ps)
        /\ DataPoint.pressure pt
           = mean_in_order (DataPoint.pressure p) (map DataPoint.pressure ps)
        /\ DataPoint.humidity pt
           = mean_in_order (DataPoint.humidity p) (map DataPoint.humidity ps)
        /\ DataPoint.wind pt = mean_in_order (DataPoint.wind p) (map DataPoint.wind ps))
  /\ (forall (items : list (WeatherItem.t Qc)) (pt : DataPoint.t Qc),
        In pt (normalize getTime "day" items) ->
        let day := observations_of_day (DataPoint.dt_txt pt) items in
        day <> []
        /\ DataPoint.temp pt
           = mean (map (fun it => WeatherItem.temp (WeatherItem.main it)) day)
        /\ DataPoint.pressure pt
           = mean (map (fun it => WeatherItem.pressure (WeatherItem.main it)) day)
        /\ DataPoint.humidity pt
           = mean (map (fun it => WeatherItem.humidity (WeatherItem.main it)) day)
        /\ DataPoint.wind pt
           = mean (map (fun it => WeatherItem.speed (WeatherItem.wind it)) day))
  /\ normalize getTime "day" (scenario binary64) = scenario_day binary64
  /\ normalize getTime "day" (scenario exact) = scenario_day exact
  /\ (forall (items : list (WeatherItem.t float)) (pt : DataPoint.t float)
             (it : WeatherItem.t float),
        In pt (normalize getTime "day" items) ->
        observations_of_day (DataPoint.dt_txt pt) items = [it] ->
        pt = {| DataPoint.dt_txt := date_of (WeatherItem.dt_txt it);
                DataPoint.temp := WeatherItem.temp (WeatherItem.main it);
                DataPoint.pressure := WeatherItem.pressure (WeatherItem.main it);
                DataPoint.humidity := WeatherItem.humidity (WeatherItem.main it);
                DataPoint.wind := WeatherItem.speed (WeatherItem.wind it) |})
  /\ (forall (items : list (WeatherItem.t Qc)) (pt : DataPoint.t Qc) (it : WeatherItem.t Qc),
        In pt (normalize getTime "day" items) ->
        observations_of_day (DataPoint.dt_txt pt) items = [it] ->
        pt = {| DataPoint.dt_txt := date_of (WeatherItem.dt_txt it);
                DataPoint.temp := WeatherItem.temp (WeatherItem.main it);
                DataPoint.pressure := WeatherItem.pressure (WeatherItem.main it);
                DataPoint.humidity := WeatherItem.humidity (WeatherItem.main it);
                DataPoint.wind := WeatherItem.speed (WeatherItem.wind it) |}).
Proof.
  split; [intros num N items pt; apply day_point_in_order|].
  split; [exact day_point_means|].
  split; [exact scenario_binary64|].
  split; [exact scenario_exact|].
  split.
  - intros items pt it. apply single_entry_day. exact float_div_one.
  - intros items pt it. apply single_entry_day. exact Qc_div_one.
Qed.

End DailyMeans.

(** The claim as first worded - each field equal to the arithmetic mean -
    fails in binary64: for temperatures 0.1, 0.2 and 0.3 the point carries
    0.20000000000000004, which is not their mean and not the binary64 number
    nearest to it either, 0.2 lying strictly between the two. *)
Lemma day_output_is_not_the_mean :
  exists pt,
    normalize digits_clock "day" decimal_forecast = [pt]
    /\ observations_of_day (DataPoint.dt_txt pt) decimal_forecast = decimal_forecast
    /\ DataPoint.temp pt = 0x1.999999999999bp-3%float
    /\ float_exact (DataPoint.temp pt)
       <> mean (map (fun it => float_exact (WeatherItem.temp (WeatherItem.main it)))
                    (observations_of_day (DataPoint.dt_txt pt) decimal_forecast))
    /\ (mean (map (fun it => float_exact (WeatherItem.temp (WeatherItem.main it)))
                  (observations_of_day (DataPoint.dt_txt pt) decimal_forecast))
        < float_exact 0x1.999999999999ap-3)%Qc
    /\ (float_exact 0x1.999999999999ap-3 < float_exact (DataPoint.temp pt))%Qc.
Proof.
  eexists. split; [vm_compute; reflexivity|].
  cbn [DataPoint.dt_txt DataPoint.temp].
  split; [reflexivity|]. split; [reflexivity|].
  split; [|split].
  - intros E. apply (f_equal this) in E. vm_compute in E. discriminate E.
  - vm_compute. reflexivity.
  - vm_compute. reflexivity.
Qed.

Lemma day_output_is_mean_in_order_witness :
  In {| DataPoint.dt_txt := "2024-01-01";
        DataPoint.temp := 0x1.999999999999bp-3%float;
        DataPoint.pressure := 1000%float;
        DataPoint.humidity := 50%float;
        DataPoint.wind := 2%float |}
     (normalize digits_clock "day" decimal_forecast)
  /\ mean_in_order 0x1.999999999999ap-4%float
       [0x1.999999999999ap-3%float; 0x1.3333333333333p-2%float]
     = 0x1.999999999999bp-3%float.
Proof.
  assert (Hin : In {| DataPoint.dt_txt := "2024-01-01";
                      DataPoint.temp := 0x1.999999999999bp-3%float;
                      DataPoint.pressure := 1000%float;
                      DataPoint.humidity := 50%float;
                      DataPoint.wind := 2%float |}
                   (normalize digits_clock "day" decimal_forecast))
    by (vm_compute; left; reflexivity).
  split; [exact Hin|].
  destruct (day_output_is_mean_in_order digits_clock) as (Hcode & _).
  destruct (Hcode _ _ _ _ Hin) as (p & ps & Hday & _ & _ & Ht & _).
  vm_compute in Hday. injection Hday as <- <-. symmetry. exact Ht.
Defined.

(** ** One point per calendar day *)

Section StringFacts.

Lemma digit_not_space c : JsString.isDigit c = true -> Ascii.eqb c " " = false.
Proof.
  intros Hc. destruct (Ascii.eqb_spec c " ") as [->|_]; [discriminate Hc|reflexivity].
Qed.

Lemma digit_first_not_inherited c r :
  JsString.isDigit c = true -> JsObject.inherited (String c r) = false.
Proof.
  destruct c as [[] [] [] [] [] [] [] []]; intros Hc; try discriminate Hc; reflexivity.
Qed.

Lemma dashed_not_index c0 c1 c2 c3 r :
  JsString.isDigit c0 = true -> JsString.isDigit c1 = true ->
  JsString.isDigit c2 = true -> JsString.isDigit c3 = true ->
  JsString.arrayIndex (String c0 (String c1 (String c2 (String c3 (String "-" r))))) = None.
Proof.
  intros H0 H1 H2 H3. unfold JsString.arrayIndex.
  destruct (_ && _); [reflexivity|].
  cbn [JsString.digits_value]. rewrite H0, H1, H2, H3. reflexivity.
Qed.

(** The date portion of a well-shaped timestamp is neither a member of
    [Object.prototype] nor an array index. *)
Lemma timestamp_date_plain s :
  JsString.isTimestamp s = true ->
  JsObject.inherited (date_of s) = false /\ JsString.arrayIndex (date_of s) = None.
Proof.
  unfold JsString.isTimestamp. cbn [JsString.date_pattern app].
  destruct s as [|c0 [|c1 [|c2 [|c3 [|c4 s]]]]];
    cbn [JsString.matches JsString.matches_class];
    rewrite ?andb_false_r; try discriminate.
  intros Hm.
  apply andb_prop in Hm; destruct Hm as [H0 Hm].
  apply andb_prop in Hm; destruct Hm as [H1 Hm].
  apply andb_prop in Hm; destruct Hm as [H2 Hm].
  apply andb_prop in Hm; destruct Hm as [H3 Hm].
  apply andb_prop in Hm; destruct Hm as [H4 _].
  apply Ascii.eqb_eq in H4. subst c4.
  unfold date_of. cbn [JsString.split_head].
  rewrite !digit_not_space by assumption.
  change (Ascii.eqb "-" " ") with false. cbv iota.
  split; [now apply digit_first_not_inherited|now apply dashed_not_index].
Qed.

Lemma date_leb_lt a b : date_leb a b = true -> a <> b -> String_as_OT.lt a b.
Proof.
  unfold date_leb. intros Hle Hne.
  destruct (String_as_OT.compare_spec a b) as [E|L|G]; [contradiction|exact L|discriminate].
Qed.

Lemma date_lt_irrefl a : ~ String_as_OT.lt a a.
Proof. apply (@irreflexivity _ _ (@StrictOrder_Irreflexive _ _ String_as_OT.lt_strorder)). Qed.

End StringFacts.

Section SortedLists.
Context {A : Type} (R : A -> A -> Prop).

Lemma StronglySorted_snoc l x :
  StronglySorted R l -> Forall (fun y => R y x) l -> StronglySorted R (l ++ [x]).
Proof.
  induction 1 as [|y l Hl IH Hy]; intros Hx; simpl.
  - repeat constructor.
  - inversion Hx as [|? ? Hyx Hlx]; subst. constructor; [now apply IH|].
    apply Forall_app. split; [exact Hy|now constructor].
Qed.

Lemma StronglySorted_snoc_inv l x :
  StronglySorted R (l ++ [x]) -> StronglySorted R l /\ Forall (fun y => R y x) l.
Proof.
  induction l as [|y l IH]; simpl; intros Hs; [split; constructor|].
  inversion Hs as [|? ? Hl Hy]; subst. destruct (IH Hl) as [Hl' Hx].
  apply Forall_app in Hy. destruct Hy as [Hy Hyx].
  split; [now constructor|]. constructor; [now inversion Hyx|exact Hx].
Qed.

Lemma StronglySorted_map_in {B : Type} (R' : B -> B -> Prop) (f : A -> B) l :
  (forall a b, In a l -> In b l -> R a b -> R' (f a) (f b)) ->
  StronglySorted R l -> StronglySorted R' (map f l).
Proof.
  intros Hf Hs. induction Hs as [|x l Hl IH Hx]; simpl; [constructor|].
  constructor.
  - apply IH. intros a b Ha Hb. apply Hf; now right.
  - rewrite Forall_forall in *. intros y Hy. apply in_map_iff in Hy.
    destruct Hy as (b & <- & Hb). apply Hf; [now left|now right|now apply Hx].
Qed.

Lemma StronglySorted_NoDup l :
  (forall x, ~ R x x) -> StronglySorted R l -> NoDup l.
Proof.
  intros Hirr. induction 1 as [|x l Hl IH Hx]; constructor; [|exact IH].
  intros Hin. rewrite Forall_forall in Hx. exact (Hirr x (Hx x Hin)).
Qed.

End SortedLists.

Section DayKeys.
Context {num : Type} `{JsNumber num}.
Implicit Types (o : JsObject.t (Group.t num)) (p : DataPoint.t num) (d : string).

Lemma group_item_keys o p :
  map fst (group_item o p)
  = match JsObject.get o (point_date p) with
    | JsObject.Undefined => map fst o ++ [point_date p]
    | _ => map fst o
    end.
Proof.
  unfold group_item, JsObject.get, point_date.
  destruct (JsObject.own o _) as [g|] eqn:Hown.
  - apply set_keys_present. eapply own_some_in, Hown.
  - destruct (JsObject.inherited _); [reflexivity|].
    apply set_keys_absent. now apply own_none_iff.
Qed.

(** The keys of [groupedData] are the dates met, [Object.prototype] member
    names excepted. *)
Lemma group_keys_in l d :
  In d (map fst (group_by_day l)) <-> In d (map point_date l) /\ JsObject.inherited d = false.
Proof.
  split.
  - intros Hin. destruct (JsObject.own (group_by_day l) d) as [g|] eqn:Hown.
    + apply group_of_day in Hown. destruct Hown as (Hd & p & ps & Hday & _).
      split; [|exact Hd]. apply in_map_iff. exists p.
      assert (Hp : In p (filter (on_day d) l)) by (rewrite Hday; now left).
      apply filter_In in Hp. destruct Hp as [Hp Hon]. split; [|exact Hp].
      now apply String.eqb_eq.
    + apply own_none_iff in Hown. contradiction.
  - intros [Hin Hd]. destruct (day_has_group l d Hd Hin) as [g Hg].
    eapply own_some_in, Hg.
Qed.

Lemma group_keys_sorted l :
  Forall (fun p => JsObject.inherited (point_date p) = false) l ->
  StronglySorted (fun a b => date_leb a b = true) (map point_date l) ->
  StronglySorted String_as_OT.lt (map fst (group_by_day l)).
Proof.
  induction l as [|x l IH] using rev_ind; intros Hplain Hsorted; [constructor|].
  rewrite map_app in Hsorted. simpl in Hsorted.
  apply StronglySorted_snoc_inv in Hsorted. destruct Hsorted as [Hl Hx].
  apply Forall_app in Hplain. destruct Hplain as [Hpl _].
  specialize (IH Hpl Hl).
  unfold group_by_day. rewrite fold_left_app. simpl.
  fold (group_by_day l). rewrite group_item_keys.
  destruct (JsObject.get (group_by_day l) (point_date x)) as [g| |] eqn:Hget; try exact IH.
  apply StronglySorted_snoc; [exact IH|].
  apply Forall_forall. intros k Hk.
  apply date_leb_lt.
  - rewrite Forall_forall in Hx. apply Hx. now apply group_keys_in in Hk.
  - intros ->. unfold JsObject.get in Hget.
    destruct (JsObject.own (group_by_day l) (point_date x)) eqn:Hown; [discriminate|].
    apply own_none_iff in Hown. contradiction.
Qed.

End DayKeys.

Section CalendarDays.
Context {num : Type} `{JsNumber num}.
Variable getTime : string -> Z.
Implicit Types (items : list (WeatherItem.t num)).


Lemma sorted_in items p :
  In p (sorted_points getTime items) <-> exists it, In it items /\ p = flatten it.
Proof.
  unfold sorted_points. split.
  - intros Hin. eapply Permutation_in in Hin; [|symmetry; apply sorted_data_perm].
    apply in_map_iff in Hin. destruct Hin as (it & <- & Hit). now exists it.
  - intros (it & Hit & ->). eapply Permutation_in; [apply sorted_data_perm|].
    now apply in_map.
Qed.

Lemma sorted_dates items d : In d (map point_date (sorted_points getTime items)) <-> In d (dates items).
Proof.
  unfold dates. rewrite !in_map_iff. split.
  - intros (p & <- & Hp). apply sorted_in in Hp. destruct Hp as (it & Hit & ->).
    now exists it.
  - intros (it & <- & Hit). exists (flatten it). split; [reflexivity|].
    apply sorted_in. now exists it.
Qed.

Lemma sorted_plain items :
  well_formed items = true ->
  Forall (fun p => JsObject.inherited (point_date p) = false
                   /\ JsString.arrayIndex (point_date p) = None) (sorted_points getTime items).
Proof.
  unfold well_formed. rewrite forallb_forall. intros Hwf.
  apply Forall_forall. intros p Hp. apply sorted_in in Hp.
  destruct Hp as (it & Hit & ->). apply timestamp_date_plain. now apply Hwf.
Qed.

Lemma sorted_days_ascend items :
  days_follow_time getTime items = true ->
  StronglySorted (fun a b => date_leb a b = true) (map point_date (sorted_points getTime items)).
Proof.
  unfold days_follow_time. rewrite forallb_forall. intros Hfollow.
  apply StronglySorted_map_in with
    (R := fun a b => (getTime (DataPoint.dt_txt a) <= getTime (DataPoint.dt_txt b))%Z).
  - intros a b Ha Hb Hab. apply sorted_in in Ha, Hb.
    destruct Ha as (ia & Hia & ->), Hb as (ib & Hib & ->).
    specialize (Hfollow ia Hia). rewrite forallb_forall in Hfollow.
    specialize (Hfollow ib Hib). simpl in Hab.
    apply Z.leb_le in Hab. now rewrite Hab in Hfollow.
  - apply sorted_data_ascending.
Qed.

Lemma day_output_dates items :
  well_formed items = true ->
  map DataPoint.dt_txt (normalize getTime "day" items)
  = map fst (group_by_day (sorted_points getTime items)).
Proof.
  intros Hwf. rewrite normalize_day, averages_dates. apply keys_creation_order.
  apply Forall_forall. intros k Hk. apply group_keys_in in Hk. destruct Hk as [Hk _].
  apply in_map_iff in Hk. destruct Hk as (p & <- & Hp).
  pose proof (sorted_plain items Hwf) as Hplain. rewrite Forall_forall in Hplain.
  now apply Hplain.
Qed.

(** C9: for a forecast whose timestamps have the endpoint's shape and are
    lexically sortable, the "day" output has exactly one point per distinct
    date portion of the input, named by that date, in ascending date order. *)
Theorem day_output_one_point_per_date items :
  well_formed items = true ->
  days_follow_time getTime items = true ->
  let out := map DataPoint.dt_txt (normalize getTime "day" items) in
  StronglySorted String_as_OT.lt out
  /\ NoDup out
  /\ (forall d, In d out <-> In d (dates items))
  /\ Permutation out (nodup string_dec (dates items))
  /\ length (normalize getTime "day" items) = length (nodup string_dec (dates items)).
Proof.
  intros Hwf Hfollow out.
  pose proof (sorted_plain items Hwf) as Hplain.
  assert (Hsorted : StronglySorted String_as_OT.lt out).
  { unfold out. rewrite day_output_dates by exact Hwf.
    apply group_keys_sorted.
    - eapply Forall_impl; [|exact Hplain]. now intros p [Hp _].
    - now apply sorted_days_ascend. }
  assert (Hnodup : NoDup out)
    by (eapply StronglySorted_NoDup; [exact date_lt_irrefl|exact Hsorted]).
  assert (Hset : forall d, In d out <-> In d (dates items)).
  { intros d. unfold out. rewrite day_output_dates by exact Hwf.
    rewrite group_keys_in, sorted_dates. split; [tauto|].
    intros Hd. split; [exact Hd|]. apply sorted_dates in Hd.
    apply in_map_iff in Hd. destruct Hd as (p & <- & Hp).
    rewrite Forall_forall in Hplain. now apply Hplain. }
  assert (Hperm : Permutation out (nodup string_dec (dates items))).
  { apply NoDup_Permutation; [exact Hnodup|apply NoDup_nodup|].
    intros d. now rewrite nodup_In. }
  repeat split; try assumption; try now apply Hset.
  apply Permutation_length in Hperm. unfold out in Hperm. now rewrite length_map in Hperm.
Qed.

End CalendarDays.

(** * Properties of the controller *)

Section ControllerFacts.
Context {num : Type} `{JsNumber num}.
Variable getTime : string -> Z.
Variable toString : num -> string.
Variable API_KEY : option string.
Implicit Types (w : World num) (s : ViewState.t num) (net : Network num).

Lemma not_API_KEY_iff : not_API_KEY API_KEY = true <-> API_KEY = None \/ API_KEY = Some "".
Proof.
  unfold not_API_KEY. destruct API_KEY as [k|]; [|tauto].
  rewrite String.eqb_eq. split; [intros ->; now right|].
  intros [E|E]; [discriminate|now inversion E].
Qed.

(** Without a credential the call only writes the error. *)
Lemma fetch_without_key net cityName g w :
  not_API_KEY API_KEY = true ->
  fetchWeatherData getTime toString API_KEY net cityName g w
  = (Done tt,
     {| view :=
          {| ViewState.city := ViewState.city (view w);
             ViewState.cityData := ViewState.cityData (view w);
             ViewState.metric := ViewState.metric (view w);
             ViewState.granularity := ViewState.granularity (view w);
             ViewState.isLoading := ViewState.isLoading (view w);
             ViewState.error := Some "API key is not configured" |};
        requests := requests w |}).
Proof. intros Hk. unfold fetchWeatherData. now rewrite Hk. Qed.

(** With a credential, a failing attempt writes the loading flag and the
    error, and nothing else. *)
Lemma fetch_failure net cityName g w :
  not_API_KEY API_KEY = false ->
  attempt_fails API_KEY net cityName = true ->
  exists m rs,
    fetchWeatherData getTime toString API_KEY net cityName g w
    = (Done tt,
       {| view :=
            {| ViewState.city := ViewState.city (view w);
               ViewState.cityData := ViewState.cityData (view w);
               ViewState.metric := ViewState.metric (view w);
               ViewState.granularity := ViewState.granularity (view w);
               ViewState.isLoading := false;
               ViewState.error := Some m |};
          requests := requests w ++ rs |})
    /\ (geocode net cityName (appid API_KEY) = inr [] -> m = "City not found").
Proof.
  intros Hk. unfold attempt_fails, fetchWeatherData, fetch_body. rewrite Hk.
  unfold try_catch_finally, bind, axios_get, setIsLoading, setError, update, throw.
  cbn [view requests ViewState.city ViewState.cityData ViewState.metric
       ViewState.granularity ViewState.isLoading ViewState.error].
  destruct (geocode net cityName (appid API_KEY)) as [e|[|first rest]].
  - intros _. exists (message_of e), [Get (geo_url API_KEY cityName)].
    split; [reflexivity|discriminate].
  - intros _. exists "City not found", [Get (geo_url API_KEY cityName)].
    split; reflexivity.
  - destruct (forecast net (lat first) (lon first) (appid API_KEY)) as [e|items];
      [|discriminate].
    intros _. exists (message_of e),
      [Get (geo_url API_KEY cityName);
       Get (forecast_url toString API_KEY (lat first) (lon first))].
    cbn [view requests]. rewrite <- app_assoc. split; [reflexivity|discriminate].
Qed.

(** With a credential and two good answers, the new series replaces the old
    one and no error is shown. *)
Lemma fetch_success net cityName g w :
  attempt_fails API_KEY net cityName = false ->
  exists first rest items,
    geocode net cityName (appid API_KEY) = inr (first :: rest)
    /\ forecast net (lat first) (lon first) (appid API_KEY) = inr items
    /\ fetchWeatherData getTime toString API_KEY net cityName g w
       = (Done tt,
          {| view :=
               {| ViewState.city := ViewState.city (view w);
                  ViewState.cityData :=
                    Some {| city := cityName; data := normalize getTime g items |};
                  ViewState.metric := ViewState.metric (view w);
                  ViewState.granularity := ViewState.granularity (view w);
                  ViewState.isLoading := false;
                  ViewState.error := None |};
             requests :=
               requests w ++ [Get (geo_url API_KEY cityName);
                              Get (forecast_url toString API_KEY (lat first) (lon first))] |}).
Proof.
  unfold attempt_fails, fetchWeatherData, fetch_body.
  destruct (not_API_KEY API_KEY); [discriminate|].
  unfold try_catch_finally, bind, axios_get, setIsLoading, setError, setCityData, update, throw.
  cbn [view requests ViewState.city ViewState.cityData ViewState.metric
       ViewState.granularity ViewState.isLoading ViewState.error].
  destruct (geocode net cityName (appid API_KEY)) as [e|[|first rest]]; try discriminate.
  destruct (forecast net (lat first) (lon first) (appid API_KEY)) as [e|items] eqn:Hfc;
    [discriminate|].
  intros _. exists first, rest, items. cbn [view requests]. rewrite <- app_assoc.
  split; [reflexivity|]. split; [exact Hfc|reflexivity].
Qed.

(** Every call ends with the loading flag down, unless there is no credential,
    in which case the flag is left as it was. *)
Lemma fetch_loading net cityName g w :
  ViewState.isLoading (view (snd (fetchWeatherData getTime toString API_KEY net cityName g w)))
  = if not_API_KEY API_KEY then ViewState.isLoading (view w) else false.
Proof.
  destruct (not_API_KEY API_KEY) eqn:Hk.
  - now rewrite fetch_without_key.
  - destruct (attempt_fails API_KEY net cityName) eqn:Hf.
    + destruct (fetch_failure net cityName g w Hk Hf) as (m & rs & -> & _). reflexivity.
    + destruct (fetch_success net cityName g w Hf) as (f & r & items & _ & _ & ->).
      reflexivity.
Qed.

(** Between two events the loading flag is down. *)
Lemma reachable_idle s : reachable getTime toString API_KEY s -> ViewState.isLoading s = false.
Proof.
  induction 1 as [|s ev Hs IH]; [reflexivity|].
  unfold run. destruct ev as [net|v|v|net v]; cbn [handle].
  - unfold handleCitySubmit, bind, read, ret. cbn [view].
    destruct (JsString.truthy _); [|exact IH].
    rewrite fetch_loading. cbn [view]. rewrite IH. now destruct (not_API_KEY _).
  - exact IH.
  - exact IH.
  - unfold handleGranularityChange, bind, read, ret, setGranularity, update. cbn [view].
    cbn [ViewState.city]. destruct (JsString.truthy _); [|exact IH].
    rewrite fetch_loading. cbn [view ViewState.isLoading]. rewrite IH.
    now destruct (not_API_KEY _).
Qed.

(** Every state between two events, and every state a handler calls
    [fetchWeatherData] from, has the loading flag up only with a credential. *)
Lemma reachable_loading_has_key s :
  reachable getTime toString API_KEY s -> loading_has_key API_KEY s = true.
Proof. intros Hs. unfold loading_has_key. now rewrite (reachable_idle s Hs). Qed.

Lemma granularity_loading_has_key s v :
  loading_has_key API_KEY (view (run (setGranularity v) s)) = loading_has_key API_KEY s.
Proof. reflexivity. Qed.

(** C3: a fetch attempt that fails leaves the held series as it was, shows an
    error message ("City not found" when the geocoding answer is empty) and
    ends with the loading flag down.  The attempt starts from any state in
    which the loading flag is up only with a credential, as it is in every
    state of the component. *)
Theorem failed_fetch_keeps_series net cityName g s :
  loading_has_key API_KEY s = true ->
  attempt_fails API_KEY net cityName = true ->
  let s' := view (run (fetchWeatherData getTime toString API_KEY net cityName g) s) in
  ViewState.cityData s' = ViewState.cityData s
  /\ (exists m, ViewState.error s' = Some m)
  /\ ViewState.isLoading s' = false
  /\ (not_API_KEY API_KEY = false ->
      geocode net cityName (appid API_KEY) = inr [] ->
      ViewState.error s' = Some "City not found").
Proof.
  intros Hs Hf. unfold loading_has_key in Hs. unfold run.
  destruct (not_API_KEY API_KEY) eqn:Hk.
  - rewrite fetch_without_key by exact Hk. cbn.
    destruct (ViewState.isLoading s); [discriminate Hs|].
    repeat split; eauto. discriminate.
  - destruct (fetch_failure net cityName g {| view := s; requests := [] |} Hk Hf)
      as (m & rs & -> & Hm).
    cbn. repeat split; eauto. intros _ Hgeo. now rewrite (Hm Hgeo).
Qed.

(** C4: with no credential configured, a fetch attempt issues no request and
    sets the error to "API key is not configured" at once, touching nothing
    else. *)
Theorem missing_key_short_circuits net cityName g w :
  API_KEY = None \/ API_KEY = Some "" ->
  let '(r, w') := fetchWeatherData getTime toString API_KEY net cityName g w in
  r = Done tt
  /\ requests w' = requests w
  /\ ViewState.error (view w') = Some "API key is not configured"
  /\ ViewState.city (view w') = ViewState.city (view w)
  /\ ViewState.cityData (view w') = ViewState.cityData (view w)
  /\ ViewState.metric (view w') = ViewState.metric (view w)
  /\ ViewState.granularity (view w') = ViewState.granularity (view w)
  /\ ViewState.isLoading (view w') = ViewState.isLoading (view w).
Proof.
  intros Hk. apply not_API_KEY_iff in Hk.
  rewrite fetch_without_key by exact Hk. cbn. repeat split.
Qed.

(** C6: submitting a city name that trims to the empty string does nothing:
    no request goes out and the state, the loading flag and the error
    included, stays as it was. *)
Theorem blank_submit_is_noop net w :
  JsString.trim (ViewState.city (view w)) = "" ->
  handleCitySubmit getTime toString API_KEY net w = (Done tt, w).
Proof.
  intros Hblank. unfold handleCitySubmit, bind, read, ret. cbn [view].
  now rewrite Hblank.
Qed.

End ControllerFacts.

(** C8: with a series held, changing the metric writes the metric and nothing
    else, and sends no request. *)
Theorem metric_change_only_sets_metric {num : Type}
  (value : string) (w : World num) (series : WeatherData num) :
  ViewState.cityData (view w) = Some series ->
  handleMetricChange value w
  = (Done tt,
     {| view :=
          {| ViewState.city := ViewState.city (view w);
             ViewState.cityData := Some series;
             ViewState.metric := value;
             ViewState.granularity := ViewState.granularity (view w);
             ViewState.isLoading := ViewState.isLoading (view w);
             ViewState.error := ViewState.error (view w) |};
        requests := requests w |}).
Proof. intros <-. reflexivity. Qed.


(** Outside the endpoint's shape the day of an observation can be lost, or
    come out of order: a date that names a member of [Object.prototype] never
    becomes a key, and a date that is an array index is listed first. *)
Example inherited_date_is_dropped :
  dates odd_forecast = ["constructor"]
  /\ normalize digits_clock "day" odd_forecast = [].
Proof. split; reflexivity. Qed.

Example index_date_is_listed_first :
  map DataPoint.dt_txt (normalize year_clock "3h" year_forecast)
  = ["2024-06-01 00:00:00"; "2025"]
  /\ map DataPoint.dt_txt (normalize year_clock "day" year_forecast)
     = ["2025"; "2024-06-01"].
Proof. split; reflexivity. Qed.

(** The city name goes into the URL as it is: a name with "&" or "#" in it
    changes the query the geocoder receives. *)
Example city_name_is_not_encoded :
  geo_url (Some "key") "San Jose&limit=5#frag"
  = "https://api.openweathermap.org/geo/1.0/direct?q=San Jose&limit=5#frag&limit=1&appid=key".
Proof. reflexivity. Qed.

(** * Concrete runs *)

Lemma three_hour_sorted_same_length_witness :
  shuffled_forecast <> []
  /\ ascending digits_clock (normalize digits_clock "3h" shuffled_forecast)
  /\ length (normalize digits_clock "3h" shuffled_forecast) = 3.
Proof.
  split; [discriminate|].
  apply (three_hour_sorted_same_length digits_clock shuffled_forecast). discriminate.
Defined.

Lemma other_granularity_is_three_hour_witness :
  "hour" <> "day"
  /\ normalize digits_clock "hour" shuffled_forecast
     = normalize digits_clock "3h" shuffled_forecast.
Proof.
  split; [discriminate|].
  apply (other_granularity_is_three_hour digits_clock "hour" shuffled_forecast). discriminate.
Defined.

Lemma day_output_one_point_per_date_witness :
  well_formed shuffled_forecast = true
  /\ days_follow_time digits_clock shuffled_forecast = true
  /\ StronglySorted String_as_OT.lt
       (map DataPoint.dt_txt (normalize digits_clock "day" shuffled_forecast))
  /\ length (normalize digits_clock "day" shuffled_forecast) = 2.
Proof.
  split; [reflexivity|]. split; [reflexivity|].
  destruct (day_output_one_point_per_date digits_clock shuffled_forecast
              eq_refl eq_refl) as (Hsorted & _ & _ & _ & Hlen).
  split; [exact Hsorted|exact Hlen].
Defined.

Lemma failed_fetch_keeps_series_witness :
  loading_has_key (Some "key") (@ViewState.initial Qc) = true
  /\ attempt_fails (Some "key") no_match "Atlantis" = true
  /\ ViewState.error
       (view (run (fetchWeatherData digits_clock numeral (Some "key") no_match "Atlantis" "3h")
                  ViewState.initial))
     = Some "City not found".
Proof.
  split; [reflexivity|]. split; [reflexivity|].
  apply (failed_fetch_keeps_series digits_clock numeral (Some "key") no_match "Atlantis" "3h"
           ViewState.initial eq_refl eq_refl); reflexivity.
Defined.

Lemma missing_key_short_circuits_witness :
  (@None string = None \/ @None string = Some "")
  /\ requests (snd (fetchWeatherData digits_clock numeral None answering "Berlin" "3h"
                      (typing "Berlin")))
     = [].
Proof.
  split; [left; reflexivity|].
  pose proof (missing_key_short_circuits digits_clock numeral None answering "Berlin" "3h"
                (typing "Berlin") (or_introl eq_refl)) as Hrun.
  destruct (fetchWeatherData digits_clock numeral None answering "Berlin" "3h" (typing "Berlin"))
    as [r w'].
  destruct Hrun as (_ & Hreq & _). exact Hreq.
Defined.

Lemma blank_submit_is_noop_witness :
  JsString.trim "   " = ""
  /\ handleCitySubmit digits_clock numeral (Some "key") answering (typing "   ")
     = (Done tt, typing "   ").
Proof.
  split; [reflexivity|].
  apply (blank_submit_is_noop digits_clock numeral (Some "key") answering (typing "   ")).
  reflexivity.
Defined.

Lemma metric_change_only_sets_metric_witness :
  ViewState.cityData (view (showing {| city := "Berlin"; data := scenario_day exact |}))
  = Some {| city := "Berlin"; data := scenario_day exact |}
  /\ ViewState.metric
       (view (snd (handleMetricChange "wind"
                     (showing {| city := "Berlin"; data := scenario_day exact |}))))
     = "wind".
Proof.
  split; [reflexivity|].
  rewrite (metric_change_only_sets_metric "wind"
             (showing {| city := "Berlin"; data := scenario_day exact |})
             {| city := "Berlin"; data := scenario_day exact |} eq_refl).
  reflexivity.
Defined.

(** * Further properties of the pipeline *)

Section ObjectKeyFacts.
Context {V : Type}.
Implicit Types (o : JsObject.t V).

Lemma index_keys_filter (ks : list string) :
  map snd (JsObject.index_keys ks)
  = filter (fun k => match JsString.arrayIndex k with Some _ => true | None => false end) ks.
Proof.
  unfold JsObject.index_keys. induction ks as [|k ks IH]; [reflexivity|].
  simpl. destruct (JsString.arrayIndex k); simpl; now rewrite IH.
Qed.

Lemma index_order_perm (l : list (N * string)) :
  Permutation l (fold_right JsObject.insert_index [] l).
Proof.
  induction l as [|e l IH]; simpl; [constructor|].
  rewrite <- insert_index_perm. now constructor.
Qed.

(** [Object.keys] lists every own property name exactly once. *)
Lemma keys_perm o : Permutation (JsObject.keys o) (map fst o).
Proof.
  unfold JsObject.keys.
  rewrite <- (Permutation_map snd (index_order_perm _)), index_keys_filter.
  induction (map fst o) as [|k ks IH]; [constructor|].
  simpl. destruct (JsString.arrayIndex k); simpl.
  - now constructor.
  - rewrite <- Permutation_middle. now constructor.
Qed.

End ObjectKeyFacts.

Section AnyForecast.
Context {num : Type} `{JsNumber num}.
Variable getTime : string -> Z.
Implicit Types (items : list (WeatherItem.t num)).

Lemma NoDup_snoc {A : Type} (l : list A) (x : A) :
  NoDup l -> ~ In x l -> NoDup (l ++ [x]).
Proof.
  intros Hl Hx. eapply Permutation_NoDup; [apply Permutation_cons_append|].
  now constructor.
Qed.

Lemma group_fold_nodup (l : list (DataPoint.t num)) (o : JsObject.t (Group.t num)) :
  NoDup (map fst o) -> NoDup (map fst (fold_left group_item l o)).
Proof.
  revert o. induction l as [|p l IH]; intros o Ho; [exact Ho|].
  simpl. apply IH. rewrite group_item_keys.
  unfold JsObject.get. destruct (JsObject.own o (point_date p)) eqn:Hown; [exact Ho|].
  destruct (JsObject.inherited _); [exact Ho|].
  apply NoDup_snoc; [exact Ho|]. now apply own_none_iff.
Qed.

(** X1: the "3h" output is a rearrangement of the flattened forecast: every
    entry comes out once, with its values as given. *)
Theorem three_hour_is_rearrangement items :
  Permutation (map flatten items) (normalize getTime "3h" items).
Proof. rewrite normalize_3h. apply sorted_data_perm. Qed.

(** X2: a forecast that is already in ascending order of parsed time comes
    out of the "3h" pipeline in the order given. *)
Theorem chronological_forecast_kept items :
  ascending getTime (map flatten items) ->
  normalize getTime "3h" items = map flatten items.
Proof. intros Hasc. rewrite normalize_3h. now apply ascending_fixed. Qed.

(** X3: entries that parse to the same time keep, in the "3h" output, the
    order they had in the forecast. *)
Theorem three_hour_ties_in_given_order items (t : Z) :
  filter (fun p => (time_of getTime p =? t)%Z) (normalize getTime "3h" items)
  = filter (fun p => (time_of getTime p =? t)%Z) (map flatten items).
Proof.
  rewrite normalize_3h. exact (Array_sort_stable (time_of getTime) t (map flatten items)).
Qed.

(** X4: for any forecast whatever, the "day" output names no date twice, and
    names exactly the dates of the forecast that are not names of
    [Object.prototype] members; so it has at most one point per distinct date
    and never more points than the forecast has entries. *)
Theorem day_output_dates_of_any_forecast items :
  let out := map DataPoint.dt_txt (normalize getTime "day" items) in
  NoDup out
  /\ (forall d, In d out <-> In d (dates items) /\ JsObject.inherited d = false)
  /\ (length (normalize getTime "day" items) <= length (nodup string_dec (dates items)))%nat
  /\ (length (normalize getTime "day" items) <= length items)%nat.
Proof.
  intros out.
  assert (Hout : out = JsObject.keys (group_by_day (sorted_points getTime items))).
  { unfold out. now rewrite normalize_day, averages_dates. }
  assert (Hnodup : NoDup out).
  { rewrite Hout. eapply Permutation_NoDup; [symmetry; apply keys_perm|].
    apply group_fold_nodup. constructor. }
  assert (Hin : forall d, In d out <-> In d (dates items) /\ JsObject.inherited d = false).
  { intros d. rewrite Hout, keys_in, group_keys_in, sorted_dates. reflexivity. }
  assert (Hlen : (length out <= length (nodup string_dec (dates items)))%nat).
  { apply NoDup_incl_length; [exact Hnodup|].
    intros d Hd. apply nodup_In. now apply Hin in Hd. }
  unfold out in Hlen. rewrite length_map in Hlen.
  repeat split; try assumption; try now apply Hin.
  etransitivity; [exact Hlen|].
  etransitivity; [apply NoDup_incl_length; [apply NoDup_nodup|]|].
  - intros d Hd. apply nodup_In in Hd. exact Hd.
  - unfold dates. now rewrite length_map.
Qed.

(** X5: averaging the "3h" series per day gives what averaging the forecast
    itself gives. *)
Theorem day_of_three_hour_series items :
  normalize getTime "day" (map as_item (normalize getTime "3h" items))
  = normalize getTime "day" items.
Proof.
  rewrite (normalize_day getTime (map as_item _)), map_flatten_as_item.
  rewrite ascending_fixed; [now rewrite normalize_3h, normalize_day|].
  rewrite normalize_3h. apply sorted_data_ascending.
Qed.

End AnyForecast.

Section OrderOfTheForecast.
Variable getTime : string -> Z.

Lemma strict_order_sorted_unique {A : Type} (R : A -> A -> Prop) (l1 l2 : list A) :
  (forall x, ~ R x x) -> (forall x y z, R x y -> R y z -> R x z) ->
  StronglySorted R l1 -> StronglySorted R l2 ->
  (forall x, In x l1 <-> In x l2) -> l1 = l2.
Proof.
  intros Hirr Htrans H1. revert l2. induction H1 as [|a l1 Hl1 IH Ha]; intros l2 H2 Hsame.
  - destruct l2 as [|b l2]; [reflexivity|]. exfalso. apply (Hsame b). now left.
  - destruct H2 as [|b l2 Hl2 Hb].
    + exfalso. apply (Hsame a). now left.
    + rewrite Forall_forall in Ha, Hb.
      assert (Hab : a = b).
      { destruct (proj1 (Hsame a) (or_introl eq_refl)) as [E|Hin]; [now symmetry|].
        destruct (proj2 (Hsame b) (or_introl eq_refl)) as [E|Hin']; [exact E|].
        exfalso. apply (Hirr a). eapply Htrans; [apply Ha, Hin'|apply Hb, Hin]. }
      subst b. f_equal. apply IH; [exact Hl2|].
      intros x. split; intros Hx.
      * destruct (proj1 (Hsame x) (or_intror Hx)) as [E|Hin]; [|exact Hin].
        subst x. exfalso. exact (Hirr a (Ha a Hx)).
      * destruct (proj2 (Hsame x) (or_intror Hx)) as [E|Hin]; [|exact Hin].
        subst x. exfalso. exact (Hirr a (Hb a Hx)).
Qed.

Lemma sorted_distinct_strict {A : Type} (key : A -> Z) (l : list A) :
  StronglySorted (key_le key) l -> NoDup (map key l) ->
  StronglySorted (fun a b => (key a < key b)%Z) l.
Proof.
  induction 1 as [|x l Hl IH Hx]; intros Hnd; [constructor|].
  simpl in Hnd. inversion Hnd as [|? ? Hout Hnd']; subst.
  constructor; [now apply IH|].
  rewrite Forall_forall in *. intros y Hy.
  assert (Hle : (key x <= key y)%Z) by exact (Hx y Hy).
  assert (Hne : key x <> key y) by (intros E; apply Hout; rewrite E; now apply in_map).
  lia.
Qed.

(** With pairwise different keys, sorting forgets the order of the list. *)
Lemma sort_ignores_order {A : Type} (key : A -> Z) (l l' : list A) :
  NoDup (map key l) -> Permutation l l' ->
  Array_sort (by_key key) l' = Array_sort (by_key key) l.
Proof.
  intros Hnd Hp.
  assert (Hs : Permutation (Array_sort (by_key key) l') (Array_sort (by_key key) l)).
  { rewrite <- (Array_sort_perm key l'), <- (Array_sort_perm key l). now symmetry. }
  apply (strict_order_sorted_unique (fun a b => (key a < key b)%Z)).
  - intros x. lia.
  - intros x y z. lia.
  - apply sorted_distinct_strict; [apply Array_sort_sorted|].
    eapply Permutation_NoDup; [|exact Hnd].
    apply Permutation_map. rewrite <- (Array_sort_perm key l'). exact Hp.
  - apply sorted_distinct_strict; [apply Array_sort_sorted|].
    eapply Permutation_NoDup; [|exact Hnd].
    apply Permutation_map. apply Array_sort_perm.
  - intros x. split; apply Permutation_in; [exact Hs|now symmetry].
Qed.

Lemma day_dates_in {num : Type} `{JsNumber num} (items : list (WeatherItem.t num)) d :
  well_formed items = true ->
  In d (map DataPoint.dt_txt (normalize getTime "day" items)) <-> In d (dates items).
Proof.
  intros Hwf. rewrite day_output_dates by exact Hwf.
  rewrite group_keys_in, sorted_dates. split; [tauto|].
  intros Hd. split; [exact Hd|]. apply (sorted_dates getTime) in Hd.
  apply in_map_iff in Hd. destruct Hd as (p & <- & Hp).
  pose proof (sorted_plain getTime items Hwf) as Hplain.
  rewrite Forall_forall in Hplain. now apply Hplain.
Qed.

(** X6: for a forecast in which no two entries parse to the same time, the
    output - at either granularity, in any arithmetic - does not depend on
    the order in which the entries are listed. *)
Theorem output_ignores_listing_order {num : Type} `{JsNumber num}
  (g : string) (items items' : list (WeatherItem.t num)) :
  NoDup (map (fun it => getTime (WeatherItem.dt_txt it)) items) ->
  Permutation items items' ->
  normalize getTime g items' = normalize getTime g items.
Proof.
  intros Hnd Hp. unfold normalize.
  assert (Hsorted : Array_sort (by_time getTime) (map flatten items')
                    = Array_sort (by_time getTime) (map flatten items)).
  { apply (sort_ignores_order (time_of getTime)).
    - rewrite map_map. exact Hnd.
    - now apply Permutation_map. }
  now rewrite Hsorted.
Qed.

End OrderOfTheForecast.

(** * Further properties of the controller *)

Section TrimFacts.

Lemma trimEnd_head c s :
  JsString.trimEnd (String c s) = ""
  \/ exists t, JsString.trimEnd (String c s) = String c t.
Proof.
  simpl. destruct (JsString.trimEnd s) as [|c' t].
  - destruct (JsString.isWhiteSpace c); [now left|right; now exists ""].
  - right. now exists (String c' t).
Qed.

Lemma trimEnd_idempotent s : JsString.trimEnd (JsString.trimEnd s) = JsString.trimEnd s.
Proof.
  induction s as [|c s IH]; [reflexivity|].
  simpl. destruct (JsString.trimEnd s) as [|c' t] eqn:E.
  - destruct (JsString.isWhiteSpace c) eqn:Hc; [reflexivity|]. simpl. now rewrite Hc.
  - change (JsString.trimEnd (String c (String c' t)))
      with (match JsString.trimEnd (String c' t) with
            | "" => if JsString.isWhiteSpace c then "" else String c ""
            | t' => String c t'
            end).
    now rewrite IH.
Qed.

Lemma trimStart_head s :
  JsString.trimStart s = ""
  \/ exists c t, JsString.trimStart s = String c t /\ JsString.isWhiteSpace c = false.
Proof.
  induction s as [|c s IH]; [now left|].
  simpl. destruct (JsString.isWhiteSpace c) eqn:Hc; [exact IH|].
  right. now exists c, s.
Qed.

Lemma trimEnd_keeps_head c t :
  JsString.isWhiteSpace c = false ->
  exists t', JsString.trimEnd (String c t) = String c t'.
Proof.
  intros Hc. simpl. destruct (JsString.trimEnd t) as [|c' t'].
  - rewrite Hc. now exists "".
  - now exists (String c' t').
Qed.

(** A trimmed string has nothing left to trim. *)
Lemma trim_idempotent s : JsString.trim (JsString.trim s) = JsString.trim s.
Proof.
  unfold JsString.trim at 2 3.
  destruct (trimStart_head s) as [->|(c & t & -> & Hc)]; [reflexivity|].
  destruct (trimEnd_keeps_head c t Hc) as [t' Ht].
  unfold JsString.trim. rewrite Ht. simpl JsString.trimStart. rewrite Hc.
  rewrite <- Ht. apply trimEnd_idempotent.
Qed.

Lemma trimStart_blank s : blank s = true -> JsString.trimStart s = "".
Proof.
  unfold blank. induction s as [|c s IH]; [reflexivity|].
  simpl. destruct (JsString.isWhiteSpace c); [exact IH|discriminate].
Qed.

Lemma trim_blank s : blank s = true -> JsString.trim s = "".
Proof. intros Hs. unfold JsString.trim. now rewrite trimStart_blank. Qed.

End TrimFacts.

Section AttemptFacts.
Context {num : Type} `{JsNumber num}.
Variable getTime : string -> Z.
Variable toString : num -> string.
Variable API_KEY : option string.
Implicit Types (w : World num) (s : ViewState.t num) (net : Network num).

(** The run of an attempt whose two requests are answered. *)
Lemma fetch_good_answers net cityName g w first rest items :
  not_API_KEY API_KEY = false ->
  geocode net cityName (appid API_KEY) = inr (first :: rest) ->
  forecast net (lat first) (lon first) (appid API_KEY) = inr items ->
  fetchWeatherData getTime toString API_KEY net cityName g w
  = (Done tt,
     {| view :=
          {| ViewState.city := ViewState.city (view w);
             ViewState.cityData :=
               Some {| city := cityName; data := normalize getTime g items |};
             ViewState.metric := ViewState.metric (view w);
             ViewState.granularity := ViewState.granularity (view w);
             ViewState.isLoading := false;
             ViewState.error := None |};
        requests :=
          requests w ++ [ Get (geo_url API_KEY cityName);
                          Get (forecast_url toString API_KEY (lat first) (lon first)) ] |}).
Proof.
  intros Hk Hgeo Hfc. unfold fetchWeatherData, fetch_body. rewrite Hk.
  unfold try_catch_finally, bind, axios_get, setIsLoading, setError, setCityData, update.
  cbn [view requests]. rewrite Hgeo. cbn [view requests]. rewrite Hfc.
  cbn [view requests ViewState.city ViewState.cityData ViewState.metric
       ViewState.granularity ViewState.isLoading ViewState.error].
  now rewrite <- app_assoc.
Qed.

(** The three ways an attempt can end, with all it writes. *)
Lemma fetch_cases net cityName g w :
  let '(r, w') := fetchWeatherData getTime toString API_KEY net cityName g w in
  r = Done tt
  /\ ViewState.city (view w') = ViewState.city (view w)
  /\ ViewState.metric (view w') = ViewState.metric (view w)
  /\ ViewState.granularity (view w') = ViewState.granularity (view w)
  /\ requests w' = requests w ++ requests_of_attempt toString API_KEY net cityName
  /\ (attempt_fails API_KEY net cityName = true ->
      ViewState.cityData (view w') = ViewState.cityData (view w)).
Proof.
  unfold requests_of_attempt.
  destruct (not_API_KEY API_KEY) eqn:Hk.
  - rewrite fetch_without_key by exact Hk. cbn. rewrite app_nil_r. repeat split.
  - destruct (attempt_fails API_KEY net cityName) eqn:Hf.
    + unfold attempt_fails, fetchWeatherData, fetch_body in *. rewrite Hk in *.
      unfold try_catch_finally, bind, axios_get, setIsLoading, setError, update, throw.
      cbn [view requests ViewState.city ViewState.cityData ViewState.metric
           ViewState.granularity ViewState.isLoading ViewState.error].
      destruct (geocode net cityName (appid API_KEY)) as [e|[|first rest]];
        [cbn; repeat split..|].
      destruct (forecast net (lat first) (lon first) (appid API_KEY)) as [e|items];
        [|discriminate].
      cbn. rewrite <- app_assoc. repeat split.
    + destruct (fetch_success getTime toString API_KEY net cityName g w Hf)
        as (first & rest & items & Hgeo & _ & ->).
      rewrite Hgeo. cbn. repeat split. discriminate.
Qed.

(** X7: with a credential and two good answers, the attempt replaces the held
    series by the normalized forecast under the requested city name, clears
    any error shown and ends with the loading flag down. *)
Theorem good_answers_replace_series net cityName g w :
  attempt_fails API_KEY net cityName = false ->
  exists first rest items,
    geocode net cityName (appid API_KEY) = inr (first :: rest)
    /\ forecast net (lat first) (lon first) (appid API_KEY) = inr items
    /\ let w' := snd (fetchWeatherData getTime toString API_KEY net cityName g w) in
       ViewState.cityData (view w')
       = Some {| city := cityName; data := normalize getTime g items |}
       /\ ViewState.error (view w') = None
       /\ ViewState.isLoading (view w') = false.
Proof.
  intros Hf. destruct (fetch_success getTime toString API_KEY net cityName g w Hf)
    as (first & rest & items & Hgeo & Hfc & Hrun).
  exists first, rest, items. rewrite Hrun. cbn. repeat split; assumption.
Qed.

(** X8: with a credential, a rejected request puts its own message on
    display, or "Failed to fetch weather data" when what was thrown is not an
    [Error]; this holds for the geocoding request and for the forecast
    request alike. *)
Theorem rejection_message_is_shown net cityName g w :
  not_API_KEY API_KEY = false ->
  let w' := snd (fetchWeatherData getTime toString API_KEY net cityName g w) in
  (forall e, geocode net cityName (appid API_KEY) = inl e ->
             ViewState.error (view w') = Some (message_of e))
  /\ (forall first rest e,
        geocode net cityName (appid API_KEY) = inr (first :: rest) ->
        forecast net (lat first) (lon first) (appid API_KEY) = inl e ->
        ViewState.error (view w') = Some (message_of e)).
Proof.
  intros Hk. unfold fetchWeatherData, fetch_body. rewrite Hk.
  unfold try_catch_finally, bind, axios_get, setIsLoading, setError, update, throw.
  cbn [view requests].
  split.
  - intros e ->. reflexivity.
  - intros first rest e -> Hfc. cbn [view requests]. rewrite Hfc. reflexivity.
Qed.

(** X9: an attempt sends nothing without a credential; otherwise it sends
    one GET to the geocoding URL, which carries the city name exactly as
    given (nothing is encoded), and then - only after an answer with at least
    one match - one GET to the forecast URL of the first match's coordinates.
    Nothing else is ever sent. *)
Theorem requests_sent_by_attempt net cityName g w :
  requests (snd (fetchWeatherData getTime toString API_KEY net cityName g w))
  = requests w ++ requests_of_attempt toString API_KEY net cityName.
Proof.
  pose proof (fetch_cases net cityName g w) as Hc.
  destruct (fetchWeatherData getTime toString API_KEY net cityName g w) as [r w'].
  now destruct Hc as (_ & _ & _ & _ & Hreq & _).
Qed.

(** X10: whatever the answers, an attempt returns normally and leaves the
    city draft, the selected metric and the selected granularity alone. *)
Theorem attempt_leaves_selections net cityName g w :
  let '(r, w') := fetchWeatherData getTime toString API_KEY net cityName g w in
  r = Done tt
  /\ ViewState.city (view w') = ViewState.city (view w)
  /\ ViewState.metric (view w') = ViewState.metric (view w)
  /\ ViewState.granularity (view w') = ViewState.granularity (view w).
Proof.
  pose proof (fetch_cases net cityName g w) as Hc.
  destruct (fetchWeatherData getTime toString API_KEY net cityName g w) as [r w'].
  now destruct Hc as (Hr & Hcity & Hm & Hg & _).
Qed.

End AttemptFacts.

Section HandlerFacts.
Context {num : Type} `{JsNumber num}.
Variable getTime : string -> Z.
Variable toString : num -> string.
Variable API_KEY : option string.
Implicit Types (w : World num) (s : ViewState.t num) (net : Network num).

Lemma handle_without_key ev s :
  not_API_KEY API_KEY = true ->
  let w' := run (handle getTime toString API_KEY ev) s in
  requests w' = []
  /\ ViewState.cityData (view w') = ViewState.cityData s
  /\ ViewState.isLoading (view w') = ViewState.isLoading s.
Proof.
  intros Hk. unfold run. destruct ev as [net|v|v|net v]; cbn [handle].
  - unfold handleCitySubmit, bind, read, ret. cbn [view].
    destruct (JsString.truthy _); [|now cbn].
    rewrite fetch_without_key by exact Hk. now cbn.
  - now cbn.
  - now cbn.
  - unfold handleGranularityChange, bind, read, ret, setGranularity, update.
    cbn [view ViewState.city]. destruct (JsString.truthy _); [|now cbn].
    rewrite fetch_without_key by exact Hk. now cbn.
Qed.

(** X11: without a credential nothing is ever fetched: whatever the user has
    done so far, no series is held, the loading flag is down, and no event
    makes the component send a request. *)
Theorem without_credential_nothing_is_fetched s :
  not_API_KEY API_KEY = true ->
  reachable getTime toString API_KEY s ->
  ViewState.cityData s = None
  /\ ViewState.isLoading s = false
  /\ forall ev, requests (run (handle getTime toString API_KEY ev) s) = [].
Proof.
  intros Hk Hs. split; [|split].
  - induction Hs as [|s ev Hs IH]; [reflexivity|].
    destruct (handle_without_key ev s Hk) as (_ & Hdata & _). now rewrite Hdata.
  - induction Hs as [|s ev Hs IH]; [reflexivity|].
    destruct (handle_without_key ev s Hk) as (_ & _ & Hload). now rewrite Hload.
  - intros ev. now destruct (handle_without_key ev s Hk) as (Hreq & _).
Qed.

(** X12: when the attempt started by a granularity change fails, the new
    granularity stays selected while the series held is still the old one,
    beside the error. *)
Theorem failed_granularity_change_keeps_old_series net v w :
  JsString.truthy (JsString.trim (ViewState.city (view w))) = true ->
  attempt_fails API_KEY net (JsString.trim (ViewState.city (view w))) = true ->
  let w' := snd (handleGranularityChange getTime toString API_KEY net v w) in
  ViewState.granularity (view w') = v
  /\ ViewState.cityData (view w') = ViewState.cityData (view w)
  /\ exists m, ViewState.error (view w') = Some m.
Proof.
  intros Hcity Hf.
  unfold handleGranularityChange, bind, read, ret, setGranularity, update.
  cbn [view ViewState.city]. rewrite Hcity.
  destruct (not_API_KEY API_KEY) eqn:Hk.
  - rewrite fetch_without_key by exact Hk. cbn. eauto.
  - match goal with |- context [fetchWeatherData _ _ _ _ _ _ ?w0] =>
      destruct (fetch_failure getTime toString API_KEY net _ v w0 Hk Hf) as (m & rs & -> & _)
    end.
    cbn. eauto.
Qed.

(** X13: submitting a non-blank city runs one attempt under its trimmed
    name: the requests are those of an attempt for the trimmed name, the draft
    keeps its white space and the granularity stays; a failing attempt leaves
    the series as it was, and when both requests are answered the series held
    is the forecast answered, normalized at the granularity selected, under
    the trimmed name. *)
Theorem submit_fetches_trimmed_city net w :
  JsString.truthy (JsString.trim (ViewState.city (view w))) = true ->
  let name := JsString.trim (ViewState.city (view w)) in
  let w' := snd (handleCitySubmit getTime toString API_KEY net w) in
  ViewState.city (view w') = ViewState.city (view w)
  /\ ViewState.granularity (view w') = ViewState.granularity (view w)
  /\ requests w' = requests w ++ requests_of_attempt toString API_KEY net name
  /\ (attempt_fails API_KEY net name = true ->
      ViewState.cityData (view w') = ViewState.cityData (view w))
  /\ (forall first rest items,
        not_API_KEY API_KEY = false ->
        geocode net name (appid API_KEY) = inr (first :: rest) ->
        forecast net (lat first) (lon first) (appid API_KEY) = inr items ->
        ViewState.cityData (view w')
        = Some {| city := name;
                  data := normalize getTime (ViewState.granularity (view w)) items |}).
Proof.
  intros Hcity name w'. unfold w', handleCitySubmit, bind, read, ret. cbn [view].
  rewrite Hcity. fold name.
  pose proof (fetch_cases getTime toString API_KEY net name
                (ViewState.granularity (view w)) w) as Hc.
  destruct (fetchWeatherData getTime toString API_KEY net name
              (ViewState.granularity (view w)) w) as [r w1] eqn:Hrun.
  destruct Hc as (_ & Hdraft & _ & Hgran & Hreq & Hkeep). cbn [snd].
  repeat split; try assumption.
  intros first rest items Hk Hgeo Hfc.
  rewrite (fetch_good_answers getTime toString API_KEY net name _ w first rest items
             Hk Hgeo Hfc) in Hrun.
  injection Hrun as _ <-. reflexivity.
Qed.

(** X14: a granularity change with a non-blank city re-fetches at the
    granularity just chosen, not at the one selected before: when both
    requests are answered, the new granularity is selected and the series
    held is the forecast answered, normalized at the new granularity. *)
Theorem granularity_change_fetches_at_new_value net v w first rest items :
  JsString.truthy (JsString.trim (ViewState.city (view w))) = true ->
  not_API_KEY API_KEY = false ->
  geocode net (JsString.trim (ViewState.city (view w))) (appid API_KEY)
  = inr (first :: rest) ->
  forecast net (lat first) (lon first) (appid API_KEY) = inr items ->
  let w' := snd (handleGranularityChange getTime toString API_KEY net v w) in
  ViewState.granularity (view w') = v
  /\ ViewState.cityData (view w')
     = Some {| city := JsString.trim (ViewState.city (view w));
               data := normalize getTime v items |}.
Proof.
  intros Hcity Hk Hgeo Hfc.
  unfold handleGranularityChange, bind, read, ret, setGranularity, update.
  cbn [view ViewState.city]. rewrite Hcity.
  rewrite (fetch_good_answers getTime toString API_KEY net _ v _ first rest items
             Hk Hgeo Hfc).
  cbn. split; reflexivity.
Qed.

(** X15: with a draft of white space only, a granularity change records the
    new granularity and does nothing else: no request, no other field. *)
Theorem granularity_change_with_blank_city net v w :
  blank (ViewState.city (view w)) = true ->
  handleGranularityChange getTime toString API_KEY net v w
  = (Done tt,
     {| view :=
          {| ViewState.city := ViewState.city (view w);
             ViewState.cityData := ViewState.cityData (view w);
             ViewState.metric := ViewState.metric (view w);
             ViewState.granularity := v;
             ViewState.isLoading := ViewState.isLoading (view w);
             ViewState.error := ViewState.error (view w) |};
        requests := requests w |}).
Proof.
  intros Hblank.
  unfold handleGranularityChange, bind, read, ret, setGranularity, update.
  cbn [view ViewState.city]. now rewrite (trim_blank _ Hblank).
Qed.

Lemma fetch_series_name net cityName g w :
  let w' := snd (fetchWeatherData getTime toString API_KEY net cityName g w) in
  ViewState.cityData (view w') = ViewState.cityData (view w)
  \/ exists d, ViewState.cityData (view w') = Some {| city := cityName; data := d |}.
Proof.
  destruct (attempt_fails API_KEY net cityName) eqn:Hf.
  - left. pose proof (fetch_cases getTime toString API_KEY net cityName g w) as Hc.
    destruct (fetchWeatherData getTime toString API_KEY net cityName g w) as [r w'].
    destruct Hc as (_ & _ & _ & _ & _ & Hdata). now apply Hdata.
  - right. destruct (fetch_success getTime toString API_KEY net cityName g w Hf)
      as (first & rest & items & _ & _ & ->). cbn. eauto.
Qed.

(** X16: the series on display is always held under a city name that is not
    empty and carries no white space at either end. *)
Theorem held_series_has_trimmed_name s series :
  reachable getTime toString API_KEY s ->
  ViewState.cityData s = Some series ->
  city series <> "" /\ JsString.trim (city series) = city series.
Proof.
  intros Hs. revert series. induction Hs as [|s ev Hs IH]; intros series; [discriminate|].
  unfold run. destruct ev as [net|v|v|net v]; cbn [handle].
  - unfold handleCitySubmit, bind, read, ret. cbn [view].
    destruct (JsString.truthy _) eqn:Hcity; [|exact (IH series)].
    match goal with |- context [fetchWeatherData _ _ _ _ ?c ?g ?w0] =>
      destruct (fetch_series_name net c g w0) as [E|(d & E)]
    end; cbv zeta in E; rewrite E; [exact (IH series)|].
    intros [= <-]. cbn [city]. split; [|apply trim_idempotent].
    intros E0. rewrite E0 in Hcity. discriminate.
  - exact (IH series).
  - exact (IH series).
  - unfold handleGranularityChange, bind, read, ret, setGranularity, update.
    cbn [view ViewState.city].
    destruct (JsString.truthy _) eqn:Hcity; [|exact (IH series)].
    match goal with |- context [fetchWeatherData _ _ _ _ ?c ?g ?w0] =>
      destruct (fetch_series_name net c g w0) as [E|(d & E)]
    end; cbv zeta in E; rewrite E; [exact (IH series)|].
    intros [= <-]. cbn [city]. split; [|apply trim_idempotent].
    intros E0. rewrite E0 in Hcity. discriminate.
Qed.

End HandlerFacts.

(** * Properties of what is rendered *)

Section SpreadFacts.
Context {V : Type}.
Implicit Types (listed props : JsObject.t V).

(** Reading a property after a spread: the spread object's value if it has
    the property, the listed one otherwise. *)
Lemma spread_own listed props k :
  NoDup (map fst props) ->
  JsObject.own (spread listed props) k
  = match JsObject.own props k with
    | Some v => Some v
    | None => JsObject.own listed k
    end.
Proof.
  unfold spread. revert listed. induction props as [|[k0 v0] props IH]; intros listed Hnd.
  - reflexivity.
  - inversion Hnd as [|? ? Hout Hnd']; subst. cbn [fold_left fst snd JsObject.own].
    rewrite IH by exact Hnd'.
    destruct (String.eqb_spec k0 k) as [->|Hne].
    + apply own_none_iff in Hout. now rewrite Hout, own_set_same.
    + destruct (JsObject.own props k); [reflexivity|]. apply own_set_other. congruence.
Qed.

End SpreadFacts.

Section ComponentFacts.
Context {num : Type}.
Implicit Types (props : JsObject.t (PropValue num)) (ref : PropValue num).

(** X17: [Input] and [Button] hand every prop they are given on to the
    element, and always render their own base classes followed by the class
    name given; a class name left out is rendered as the word "undefined". *)
Theorem component_class_and_props (className : option string) props ref children :
  NoDup (map fst props) ->
  JsObject.own props "className" = None ->
  prop "className" (Input className props ref)
  = Some (VString ("px-3 py-2 border rounded-md " ++ className_text className))
  /\ prop "className" (Button className children props ref)
     = Some (VString
               ("px-4 py-2 bg-blue-500 text-white rounded-md hover:bg-blue-600 disabled:bg-blue-300 "
                ++ className_text className))
  /\ (forall k v, JsObject.own props k = Some v ->
                  prop k (Input className props ref) = Some v
                  /\ prop k (Button className children props ref) = Some v)
  /\ prop "className" (@Input num None props ref)
     = Some (VString "px-3 py-2 border rounded-md undefined").
Proof.
  intros Hnd Hcn. unfold Input, Button, prop.
  split; [|split; [|split]].
  - now rewrite spread_own, Hcn by exact Hnd.
  - now rewrite spread_own, Hcn by exact Hnd.
  - intros k v Hk. split; now rewrite spread_own, Hk by exact Hnd.
  - now rewrite spread_own, Hcn by exact Hnd.
Qed.

End ComponentFacts.

Section RenderFacts.
Context {num : Type} `{JsNumber num}.
Implicit Types (s : ViewState.t num) (w : World num).

Lemma descendants_render s :
  exists fixed,
    descendants (render s)
    = fixed ++ descendants (error_banner (ViewState.error s))
            ++ descendants (chart (ViewState.cityData s) (ViewState.metric s))
    /\ (forall m, ~ In (banner m) fixed)
    /\ (forall n, In n fixed -> has_tag "Line" n = false).
Proof.
  unfold render, Input, Button, option_element.
  cbn [descendants flat_map app]. rewrite app_nil_r.
  eexists (_ :: _ :: _ :: _ :: _ :: _ :: _ :: _ :: _ :: _ :: _ :: _ :: _ :: _ :: _ :: _
             :: _ :: _ :: _ :: _ :: _ :: _ :: _ :: _ :: _ :: _ :: _ :: []).
  split; [cbn [app]; reflexivity|]. split.
  - intros m Hin. unfold banner in Hin. cbn [In] in Hin.
    repeat (destruct Hin as [Hin|Hin]; [discriminate Hin|]). exact Hin.
  - intros n Hin. cbn [In] in Hin.
    repeat (destruct Hin as [<-|Hin]; [reflexivity|]). contradiction.
Qed.

Lemma chart_has_no_banner (cityData : option (WeatherData num)) metric m :
  ~ In (banner m) (descendants (chart cityData metric)).
Proof.
  destruct cityData as [cd|]; cbn; unfold banner; intros Hin;
    repeat (destruct Hin as [Hin|Hin]; [discriminate Hin|]); exact Hin.
Qed.

(** X18: the error banner is on screen exactly when the error held is a
    non-empty string, and then it shows that string; an error that is the
    empty string puts no banner on screen. *)
Theorem banner_shows_nonempty_error s m :
  In (banner m) (descendants (render s)) <-> ViewState.error s = Some m /\ m <> "".
Proof.
  destruct (descendants_render s) as (fixed & -> & Hfixed & _).
  rewrite !in_app_iff. split.
  - intros [Hin|[Hin|Hin]].
    + now apply Hfixed in Hin.
    + destruct (ViewState.error s) as [m'|]; cbn [error_banner] in Hin.
      * destruct (JsString.truthy m') eqn:Htruthy; cbn in Hin.
        -- destruct Hin as [Hin|[Hin|[]]]; [|discriminate Hin].
           unfold banner in Hin. injection Hin as Hm. subst m'. split; [reflexivity|].
           intros E. subst m. discriminate Htruthy.
        -- destruct Hin as [Hin|[]]. discriminate Hin.
      * cbn in Hin. destruct Hin as [Hin|[]]. discriminate Hin.
    + now apply chart_has_no_banner in Hin.
  - intros [-> Hne]. right. left. cbn. unfold JsString.truthy.
    destruct (String.eqb_spec m "") as [E|_]; [contradiction|]. now left.
Qed.

(** X19: the chart is on screen exactly when a series is held; its one line
    plots that series' points, under that series' city name, reading the
    field named by the selected metric. *)
Theorem chart_plots_held_series s :
  match ViewState.cityData s with
  | None => elements "Line" (render s) = [] /\ elements "ResponsiveContainer" (render s) = []
  | Some series =>
      exists line,
        elements "Line" (render s) = [line]
        /\ prop "data" line = Some (VData (data series))
        /\ prop "name" line = Some (VString (city series))
        /\ prop "dataKey" line = Some (VString (ViewState.metric s))
  end.
Proof.
  unfold elements, render, Input, Button, option_element.
  cbn [descendants flat_map app]. rewrite app_nil_r.
  destruct (ViewState.cityData s) as [series|]; destruct (ViewState.error s) as [m|];
    cbn [error_banner chart]; try destruct (JsString.truthy m);
    cbn; try (split; reflexivity); eexists; (split; [reflexivity|]); repeat split.
Qed.

(** X20: in every state the form has one text input and one submit button,
    both disabled exactly while the loading flag is up, and both carrying the
    word "undefined" in their class because no class name is passed to them;
    the two selectors are never disabled. *)
Theorem controls_follow_loading_flag s :
  (exists input button,
     elements "input" (render s) = [input]
     /\ elements "button" (render s) = [button]
     /\ prop "disabled" input = Some (VBool (ViewState.isLoading s))
     /\ prop "disabled" button = Some (VBool (ViewState.isLoading s))
     /\ prop "value" input = Some (VString (ViewState.city s))
     /\ prop "className" input = Some (VString "px-3 py-2 border rounded-md undefined")
     /\ prop "className" button
        = Some (VString
                  "px-4 py-2 bg-blue-500 text-white rounded-md hover:bg-blue-600 disabled:bg-blue-300 undefined"))
  /\ length (elements "select" (render s)) = 2%nat
  /\ (forall n, In n (elements "select" (render s)) -> prop "disabled" n = None).
Proof.
  unfold elements, render, Input, Button, option_element.
  cbn [descendants flat_map app]. rewrite app_nil_r.
  destruct (ViewState.cityData s) as [series|]; destruct (ViewState.error s) as [m|];
    cbn [error_banner chart]; try destruct (JsString.truthy m); cbn;
    (split; [do 2 eexists; repeat split|]);
    (split; [reflexivity|]);
    intros n Hin; repeat (destruct Hin as [<-|Hin]; [reflexivity|]); contradiction.
Qed.

End RenderFacts.

(** * The "day" series normalized again *)

Section DayOfDay.
Variable getTime : string -> Z.

Lemma date_of_idempotent s : date_of (date_of s) = date_of s.
Proof.
  unfold date_of. induction s as [|c s IH]; [reflexivity|].
  simpl. destruct (Ascii.eqb c " ") eqn:Hc; [reflexivity|].
  simpl. now rewrite Hc, IH.
Qed.

Lemma own_app_absent {V : Type} (o : JsObject.t V) k k' v :
  JsObject.own o k = None -> k' <> k -> JsObject.own (o ++ [(k', v)]) k = None.
Proof.
  intros Hown Hne. induction o as [|[k0 v0] o IH]; simpl in *.
  - now destruct (String.eqb_spec k' k).
  - destruct (k0 =? k); [discriminate|now apply IH].
Qed.

Lemma set_absent {V : Type} (o : JsObject.t V) k v :
  JsObject.own o k = None -> JsObject.set o k v = o ++ [(k, v)].
Proof.
  induction o as [|[k0 v0] o IH]; simpl; [reflexivity|].
  destruct (k0 =? k); [discriminate|]. intros Hown. now rewrite IH.
Qed.

(** Points of pairwise different days, none named like a member of
    [Object.prototype], are grouped one by one, in their order. *)
Lemma group_fold_distinct {num : Type} `{JsNumber num}
  (l : list (DataPoint.t num)) (o : JsObject.t (Group.t num)) :
  NoDup (map point_date l) ->
  (forall p, In p l ->
     JsObject.inherited (point_date p) = false /\ JsObject.own o (point_date p) = None) ->
  fold_left group_item l o = o ++ map (fun p => (point_date p, first_of_day p)) l.
Proof.
  revert o. induction l as [|p l IH]; intros o Hnd Hnew; simpl.
  - now rewrite app_nil_r.
  - inversion Hnd as [|? ? Hout Hnd']; subst.
    destruct (Hnew p (or_introl eq_refl)) as [Hinh Hown].
    unfold group_item at 2. unfold JsObject.get. fold (point_date p).
    rewrite Hown, Hinh, (set_absent _ _ _ Hown).
    rewrite IH; [now rewrite <- app_assoc|exact Hnd'|].
    intros q Hq. destruct (Hnew q (or_intror Hq)) as [Hq1 Hq2].
    split; [exact Hq1|]. apply own_app_absent; [exact Hq2|].
    intros E. apply Hout. rewrite E. now apply in_map.
Qed.

Lemma own_of_entry {V : Type} (o : JsObject.t V) k v :
  NoDup (map fst o) -> In (k, v) o -> JsObject.own o k = Some v.
Proof.
  induction o as [|[k0 v0] o IH]; simpl; [contradiction|].
  intros Hnd [E|Hin].
  - injection E as -> ->. now rewrite String.eqb_refl.
  - inversion Hnd as [|? ? Hout Hnd']; subst.
    destruct (String.eqb_spec k0 k) as [->|_]; [|now apply IH].
    exfalso. apply Hout. change k with (fst (k, v)). now apply in_map.
Qed.

Lemma averages_entrywise {num : Type} `{JsNumber num} (o : JsObject.t (Group.t num)) :
  NoDup (map fst o) ->
  Forall (fun k => JsString.arrayIndex k = None) (map fst o) ->
  averages o = map (fun e => average (fst e) (snd e)) o.
Proof.
  intros Hnd Hplain. unfold averages. rewrite (keys_creation_order o Hplain).
  assert (Hsub : forall l, incl l o ->
            flat_map (fun date => match JsObject.own o date with
                                  | Some g => [average date g]
                                  | None => []
                                  end) (map fst l)
            = map (fun e => average (fst e) (snd e)) l).
  { induction l as [|[k v] l IHl]; intros Hincl; [reflexivity|].
    simpl. rewrite (own_of_entry o k v Hnd) by (apply Hincl; now left).
    simpl. f_equal. apply IHl. intros e He. apply Hincl. now right. }
  apply Hsub. apply incl_refl.
Qed.

Lemma average_of_one (p : DataPoint.t Qc) :
  point_date p = DataPoint.dt_txt p -> average (point_date p) (first_of_day p) = p.
Proof.
  intros ->. destruct p as [dt t pr h w]. unfold average, first_of_day. simpl.
  assert (Hone : forall x : Qc, (x / 1)%Qc = x).
  { intros x. unfold Qcdiv. change (/ 1)%Qc with 1%Qc. ring. }
  now rewrite !Hone.
Qed.

Lemma day_dates_nodup {num : Type} `{JsNumber num} (items : list (WeatherItem.t num)) :
  NoDup (map DataPoint.dt_txt (normalize getTime "day" items)).
Proof.
  rewrite normalize_day, averages_dates.
  eapply Permutation_NoDup; [symmetry; apply keys_perm|].
  apply group_fold_nodup. constructor.
Qed.

Lemma day_point_date {num : Type} `{JsNumber num} (items : list (WeatherItem.t num)) p :
  In p (normalize getTime "day" items) ->
  point_date p = DataPoint.dt_txt p
  /\ JsObject.inherited (DataPoint.dt_txt p) = false
  /\ In (DataPoint.dt_txt p) (dates items).
Proof.
  intros Hin. assert (Hd : In (DataPoint.dt_txt p)
                              (map DataPoint.dt_txt (normalize getTime "day" items)))
    by now apply in_map.
  assert (Hkeys : map DataPoint.dt_txt (normalize getTime "day" items)
                  = JsObject.keys (group_by_day (sorted_points getTime items)))
    by now rewrite normalize_day, averages_dates.
  rewrite Hkeys, keys_in, group_keys_in, sorted_dates in Hd.
  destruct Hd as [Hd Hinh]. repeat split; try assumption.
  unfold dates in Hd. apply in_map_iff in Hd. destruct Hd as (it & E & _).
  unfold point_date. rewrite <- E. apply date_of_idempotent.
Qed.

(** X21: a "day" series whose dates parse in ascending order is left as it is
    by a further "day" normalization (for a forecast of well-shaped
    timestamps, in exact arithmetic). *)
Theorem day_series_is_fixed_by_day (items : list (WeatherItem.t Qc)) :
  well_formed items = true ->
  ascending getTime (normalize getTime "day" items) ->
  normalize getTime "day" (map as_item (normalize getTime "day" items))
  = normalize getTime "day" items.
Proof.
  intros Hwf Hasc. set (out := normalize getTime "day" items) in *.
  rewrite (normalize_day getTime (map as_item out)), map_flatten_as_item.
  rewrite (ascending_fixed getTime out Hasc).
  assert (Hdates : map point_date out = map DataPoint.dt_txt out).
  { apply map_ext_in. intros p Hp. now apply (day_point_date items). }
  assert (Hnd : NoDup (map point_date out))
    by (rewrite Hdates; apply day_dates_nodup).
  unfold group_by_day. rewrite group_fold_distinct; [|exact Hnd|].
  - cbn [app]. rewrite averages_entrywise.
    + rewrite map_map. cbn [fst snd]. rewrite <- (map_id out) at 2.
      apply map_ext_in. intros p Hp. apply average_of_one.
      now apply (day_point_date items).
    + rewrite map_map. exact Hnd.
    + rewrite map_map. apply Forall_forall. intros d Hd.
      apply in_map_iff in Hd. destruct Hd as (p & <- & Hp). cbn [fst].
      destruct (day_point_date items p Hp) as (-> & _ & Hd).
      unfold dates in Hd. apply in_map_iff in Hd. destruct Hd as (it & <- & Hit).
      apply timestamp_date_plain. unfold well_formed in Hwf.
      rewrite forallb_forall in Hwf. now apply Hwf.
  - intros p Hp. split; [|reflexivity].
    destruct (day_point_date items p Hp) as (E & Hinh & _). now rewrite E.
Qed.

End DayOfDay.

(** * Concrete runs of the further properties *)

Lemma chronological_forecast_kept_witness :
  ascending digits_clock (map flatten (scenario exact))
  /\ map DataPoint.dt_txt (normalize digits_clock "3h" (scenario exact))
     = ["2024-01-01 00:00:00"; "2024-01-01 03:00:00"].
Proof.
  assert (Hasc : ascending digits_clock (map flatten (scenario exact))).
  { unfold ascending. repeat constructor. vm_compute. discriminate. }
  split; [exact Hasc|].
  now rewrite (chronological_forecast_kept digits_clock (scenario exact) Hasc).
Defined.

Lemma output_ignores_listing_order_witness :
  NoDup (map (fun it => digits_clock (WeatherItem.dt_txt it)) decimal_forecast)
  /\ normalize digits_clock "day" (rev decimal_forecast)
     = normalize digits_clock "day" decimal_forecast.
Proof.
  assert (Hnd : NoDup (map (fun it => digits_clock (WeatherItem.dt_txt it))
                           decimal_forecast)).
  { vm_compute. repeat constructor; simpl; intuition discriminate. }
  split; [exact Hnd|].
  apply (output_ignores_listing_order digits_clock "day" decimal_forecast
           (rev decimal_forecast) Hnd).
  apply Permutation_rev.
Defined.

Lemma good_answers_replace_series_witness :
  attempt_fails (Some "key") answering "Berlin" = false
  /\ ViewState.error
       (view (snd (fetchWeatherData digits_clock numeral (Some "key") answering "Berlin" "day"
                     (typing "Berlin"))))
     = None.
Proof.
  split; [reflexivity|].
  destruct (good_answers_replace_series digits_clock numeral (Some "key") answering "Berlin" "day"
              (typing "Berlin") eq_refl) as (first & rest & items & _ & _ & Hrun).
  now destruct Hrun as (_ & Herr & _).
Defined.

Lemma rejection_message_is_shown_witness :
  not_API_KEY (Some "key") = false
  /\ ViewState.error
       (view (snd (fetchWeatherData digits_clock numeral (Some "key") geocoder_down "Berlin" "3h"
                     (typing "Berlin"))))
     = Some "Network Error".
Proof.
  split; [reflexivity|].
  destruct (rejection_message_is_shown digits_clock numeral (Some "key") geocoder_down "Berlin" "3h"
              (typing "Berlin") eq_refl) as [Hgeo _].
  exact (Hgeo (JsError "Network Error") eq_refl).
Defined.

Lemma without_credential_nothing_is_fetched_witness :
  not_API_KEY None = true
  /\ reachable digits_clock numeral None (view (typing "Berlin"))
  /\ requests (run (handle digits_clock numeral None (CitySubmit answering))
                   (view (typing "Berlin")))
     = []
  /\ requests (run (handle digits_clock numeral (Some "key") (CitySubmit answering))
                   (view (typing "Berlin")))
     <> [].
Proof.
  assert (Hreach : reachable digits_clock numeral None (view (typing "Berlin")))
    by exact (reachable_step digits_clock numeral None ViewState.initial
                (InputChange "Berlin") (reachable_initial _ _ _)).
  split; [reflexivity|]. split; [exact Hreach|]. split; [|discriminate].
  destruct (without_credential_nothing_is_fetched digits_clock numeral None
              (view (typing "Berlin")) eq_refl Hreach) as (_ & _ & Hreq).
  apply Hreq.
Defined.

Lemma failed_granularity_change_keeps_old_series_witness :
  JsString.truthy (JsString.trim "Berlin") = true
  /\ attempt_fails (Some "key") forecast_refused (JsString.trim "Berlin") = true
  /\ ViewState.granularity
       (view (snd (handleGranularityChange digits_clock numeral (Some "key") forecast_refused "day"
                     (showing {| city := "Berlin"; data := scenario_day exact |}))))
     = "day".
Proof.
  split; [reflexivity|]. split; [reflexivity|].
  apply (failed_granularity_change_keeps_old_series digits_clock numeral (Some "key")
           forecast_refused "day"
           (showing {| city := "Berlin"; data := scenario_day exact |}) eq_refl eq_refl).
Defined.

Lemma submit_fetches_trimmed_city_witness :
  JsString.truthy (JsString.trim " Berlin ") = true
  /\ requests (snd (handleCitySubmit digits_clock numeral (Some "key") answering
                      (typing " Berlin ")))
     = [ Get "https://api.openweathermap.org/geo/1.0/direct?q=Berlin&limit=1&appid=key";
         Get "https://api.openweathermap.org/data/2.5/forecast?lat=52&lon=13&appid=key&units=metric" ]
  /\ ViewState.cityData
       (view (snd (handleCitySubmit digits_clock numeral (Some "key") answering
                     (typing " Berlin "))))
     = Some {| city := "Berlin"; data := normalize digits_clock "3h" shuffled_forecast |}.
Proof.
  destruct (submit_fetches_trimmed_city digits_clock numeral (Some "key") answering
              (typing " Berlin ") eq_refl) as (_ & _ & Hreq & _ & Hdata).
  split; [reflexivity|]. split; [exact Hreq|].
  exact (Hdata _ _ _ eq_refl eq_refl eq_refl).
Defined.

Lemma granularity_change_fetches_at_new_value_witness :
  JsString.truthy (JsString.trim " Berlin ") = true
  /\ not_API_KEY (Some "key") = false
  /\ ViewState.cityData
       (view (snd (handleGranularityChange digits_clock numeral (Some "key") answering "day"
                     (typing " Berlin "))))
     = Some {| city := "Berlin"; data := normalize digits_clock "day" shuffled_forecast |}.
Proof.
  split; [reflexivity|]. split; [reflexivity|].
  apply (granularity_change_fetches_at_new_value digits_clock numeral (Some "key")
           answering "day" (typing " Berlin ") _ _ _ eq_refl eq_refl eq_refl eq_refl).
Defined.

Lemma granularity_change_with_blank_city_witness :
  blank "   " = true
  /\ requests (snd (handleGranularityChange digits_clock numeral (Some "key") answering "day"
                      (typing "   ")))
     = [].
Proof.
  split; [reflexivity|].
  now rewrite (granularity_change_with_blank_city digits_clock numeral (Some "key") answering "day"
                 (typing "   ") eq_refl).
Defined.

Lemma held_series_has_trimmed_name_witness :
  reachable digits_clock numeral (Some "key")
    (view (run (handle digits_clock numeral (Some "key") (CitySubmit answering))
               (view (typing " Berlin "))))
  /\ JsString.trim "Berlin" = "Berlin".
Proof.
  assert (Hreach : reachable digits_clock numeral (Some "key")
            (view (run (handle digits_clock numeral (Some "key") (CitySubmit answering))
                       (view (typing " Berlin "))))).
  { apply reachable_step.
    exact (reachable_step digits_clock numeral (Some "key") ViewState.initial
             (InputChange " Berlin ") (reachable_initial _ _ _)). }
  split; [exact Hreach|].
  apply (held_series_has_trimmed_name digits_clock numeral (Some "key") _
           {| city := "Berlin"; data := normalize digits_clock "3h" shuffled_forecast |}
           Hreach eq_refl).
Defined.

Lemma component_class_and_props_witness :
  NoDup (map fst [("type", @VString Qc "submit")])
  /\ JsObject.own [("type", @VString Qc "submit")] "className" = None
  /\ prop "type" (Button None [] [("type", @VString Qc "submit")] VNull)
     = Some (VString "submit").
Proof.
  assert (Hnd : NoDup (map fst [("type", @VString Qc "submit")]))
    by (repeat constructor; simpl; tauto).
  split; [exact Hnd|]. split; [reflexivity|].
  destruct (component_class_and_props None [("type", @VString Qc "submit")] VNull []
              Hnd eq_refl) as (_ & _ & Hpass & _).
  now apply (Hpass "type" (VString "submit")).
Defined.

Lemma controls_follow_loading_flag_witness :
  length (elements "select" (render (view (typing "Berlin")))) = 2%nat.
Proof.
  now destruct (controls_follow_loading_flag (view (typing "Berlin"))) as (_ & Hlen & _).
Defined.

Lemma day_series_is_fixed_by_day_witness :
  well_formed shuffled_forecast = true
  /\ ascending digits_clock (normalize digits_clock "day" shuffled_forecast)
  /\ normalize digits_clock "day"
       (map as_item (normalize digits_clock "day" shuffled_forecast))
     = normalize digits_clock "day" shuffled_forecast.
Proof.
  assert (Hasc : ascending digits_clock (normalize digits_clock "day" shuffled_forecast)).
  { unfold ascending. vm_compute normalize. repeat constructor. vm_compute. discriminate. }
  split; [reflexivity|]. split; [exact Hasc|].
  exact (day_series_is_fixed_by_day digits_clock shuffled_forecast eq_refl Hasc).
Defined.
